(** * vimeo-mcp-lite: a shallow embedding of [src/index.ts]

    The server is one TypeScript file: a promise-returning HTTP helper
    ([vimeoRequest]), two extractors that shrink an upstream resource to a
    minimal record, nine tool handlers and the dispatcher registered for
    [CallToolRequestSchema].  Everything the program touches is typed [any],
    so the embedding works on untyped JavaScript values and keeps the
    run-time failures (a [TypeError] on reading a property of [undefined],
    on calling a missing method, ...) as explicit outcomes.

    Conventions of the embedding.
    - A JavaScript string is a sequence of UTF-16 code units; the embedding
      uses [string], so it covers the strings whose code units are below 256.
      [split], [substring], [includes] and [length] act per code unit, as
      they do in JavaScript.
    - A JavaScript number is a [Z]: the embedding covers the integer-valued
      numbers (counts, byte sizes, page numbers, status codes).  The decimal
      rendering of a number is the one JavaScript prints for integers of
      magnitude below 10^21.  [JNaN] is the one non-integer that the program
      can produce by itself ([Math.min] of something that is not a number).
    - An object is an association list in property-enumeration order.
      Objects come from [JSON.parse] or from object literals: no property
      holds a function and no prototype is involved other than
      [Object.prototype], [Array.prototype] and [String.prototype]. *)

From Stdlib Require Import ZArith QArith List String Ascii Bool Lia DecimalString.
From ExtLib Require Import Structures.Monad Structures.MonadExc.
Import ListNotations.
Import MonadNotation.

Set Warnings "-register-all".
Local Open Scope Z_scope.
Local Open Scope string_scope.
Local Open Scope monad_scope.

(* ===================================================================== *)
(** ** JavaScript values *)
(* ===================================================================== *)

Inductive JsVal : Type :=
| JUndefined
| JNull
| JBool (b : bool)
| JNum (n : Z)
| JNaN
| JStr (s : string)
| JArr (items : list JsVal)
| JObj (props : list (string * JsVal)).

(** Error objects: what a [throw] or a rejected promise carries.  The
    dispatcher only ever reads [message]. *)
Record JsError : Type := mkError { err_name : string; message : string }.

Definition TypeError (msg : string) : JsError :=
  {| err_name := "TypeError"; message := msg |}.

(** The result of running a piece of JavaScript: it returned, it threw, or
    the iteration budget given to a [while] loop ran out before it
    finished. *)
Inductive Outcome (A : Type) : Type :=
| Returned (a : A)
| Thrown (e : JsError)
| Unfinished.
Arguments Returned {A} a.
Arguments Thrown {A} e.
Arguments Unfinished {A}.

#[global] Instance Monad_Outcome : Monad Outcome :=
  {| ret := fun A a => Returned a;
     bind := fun A B c k =>
       match c with
       | Returned a => k a
       | Thrown e => Thrown e
       | Unfinished => Unfinished
       end |}.

#[global] Instance Exc_Outcome : MonadExc JsError Outcome :=
  {| raise := fun A e => Thrown e;
     catch := fun A c h =>
       match c with
       | Thrown e => h e
       | other => other
       end |}.

(** Truthiness ([ToBoolean]). *)
Definition truthy (v : JsVal) : bool :=
  match v with
  | JUndefined | JNull | JNaN => false
  | JBool b => b
  | JNum n => negb (Z.eqb n 0)
  | JStr s => negb (String.eqb s "")
  | JArr _ | JObj _ => true
  end.

(** [a || b], for an operand [b] without effects. *)
Definition or_else (a b : JsVal) : JsVal := if truthy a then a else b.

(** [v == null]: what optional chaining tests. *)
Definition nullish (v : JsVal) : bool :=
  match v with
  | JUndefined | JNull => true
  | _ => false
  end.

Fixpoint lookup (k : string) (props : list (string * JsVal)) : option JsVal :=
  match props with
  | [] => None
  | (k', v) :: rest => if String.eqb k k' then Some v else lookup k rest
  end.

Definition has_key (k : string) (props : list (string * JsVal)) : bool :=
  match lookup k props with Some _ => true | None => false end.

(** [o.k] for the property names the program reads ([uri], [name], [data],
    [total], ...): none of them is inherited by plain objects, arrays,
    numbers or booleans, so only an own property of an object has a value.
    (A string inherits two of them, the methods [link] and [search];
    [search] is only read from the arguments, which the SDK has checked to
    be an object or absent, and for [link] see [handleGetVideo].)
    Reading a property of [undefined] or [null] throws. *)
Definition cannot_read (o : JsVal) (k : string) : JsError :=
  TypeError ("Cannot read properties of "
             ++ match o with JNull => "null" | _ => "undefined" end
             ++ " (reading '" ++ k ++ "')").

Definition get (o : JsVal) (k : string) : Outcome JsVal :=
  match o with
  | JUndefined | JNull => raise (cannot_read o k)
  | JObj props =>
      ret (match lookup k props with Some v => v | None => JUndefined end)
  | _ => ret JUndefined
  end.

(** [o?. rest]: the rest of the chain is skipped, with value [undefined],
    when [o] is [undefined] or [null]. *)
Definition opt_chain (o : JsVal) (rest : JsVal -> Outcome JsVal) : Outcome JsVal :=
  if nullish o then ret JUndefined else rest o.

(* ===================================================================== *)
(** ** Strings *)
(* ===================================================================== *)

Definition Number_toString (n : Z) : string :=
  NilZero.string_of_int (Z.to_int n).

(** [s.split(sep)] for a one-character separator, which is what both call
    sites pass.  The result is never empty. *)
Fixpoint split_on (sep : ascii) (s : string) : list string :=
  match s with
  | EmptyString => [EmptyString]
  | String c rest =>
      if Ascii.eqb c sep then EmptyString :: split_on sep rest
      else match split_on sep rest with
           | seg :: segs => String c seg :: segs
           | [] => [String c EmptyString]
           end
  end.

(** [arr.pop()] and [arr[0]] on an array of strings. *)
Definition pop (segs : list string) : JsVal :=
  match rev segs with
  | [] => JUndefined
  | s :: _ => JStr s
  end.

Definition first (segs : list string) : JsVal :=
  match segs with
  | [] => JUndefined
  | s :: _ => JStr s
  end.

Fixpoint take (n : nat) (s : string) : string :=
  match n, s with
  | O, _ => EmptyString
  | _, EmptyString => EmptyString
  | S n', String c rest => String c (take n' rest)
  end.

Fixpoint contains (needle s : string) : bool :=
  String.prefix needle s ||
  match s with
  | EmptyString => false
  | String _ rest => contains needle rest
  end.

Fixpoint has_char (c : ascii) (s : string) : bool :=
  match s with
  | EmptyString => false
  | String c' rest => Ascii.eqb c' c || has_char c rest
  end.

(** The errors of the runtime; the wording of their messages is the
    engine's (V8's is used here). *)
Definition not_a_function (what : string) : JsError :=
  TypeError (what ++ " is not a function").

(** [recv.split(sep)]: a method of strings only. *)
Definition call_split (recv : JsVal) (sep : ascii) : Outcome (list string) :=
  match recv with
  | JStr s => ret (split_on sep s)
  | JUndefined | JNull => raise (cannot_read recv "split")
  | _ => raise (not_a_function "split")
  end.

(** [recv.substring(0, n)] for [n >= 0]: a method of strings only. *)
Definition call_substring0 (recv : JsVal) (n : nat) : Outcome JsVal :=
  match recv with
  | JStr s => ret (JStr (take n s))
  | JUndefined | JNull => raise (cannot_read recv "substring")
  | _ => raise (not_a_function "substring")
  end.

(** [recv.includes(needle)] for a string [needle]: substring search on a
    string, membership on an array. *)
Definition call_includes (recv : JsVal) (needle : string) : Outcome JsVal :=
  match recv with
  | JStr s => ret (JBool (contains needle s))
  | JArr items =>
      ret (JBool (existsb (fun x => match x with
                                    | JStr s => String.eqb s needle
                                    | _ => false
                                    end) items))
  | JUndefined | JNull => raise (cannot_read recv "includes")
  | _ => raise (not_a_function "includes")
  end.

Fixpoint mapM {A B : Type} (f : A -> Outcome B) (l : list A) : Outcome (list B) :=
  match l with
  | [] => ret []
  | x :: rest => y <- f x ;; ys <- mapM f rest ;; ret (y :: ys)
  end.

(** [recv.map(f)]: a method of arrays only; the callback may throw. *)
Definition call_map (recv : JsVal) (f : JsVal -> Outcome JsVal) : Outcome JsVal :=
  match recv with
  | JArr items => ys <- mapM f items ;; ret (JArr ys)
  | JUndefined | JNull => raise (cannot_read recv "map")
  | _ => raise (not_a_function "map")
  end.

(** [arr.length] of a value known to be an array. *)
Definition array_length (v : JsVal) : JsVal :=
  match v with
  | JArr items => JNum (Z.of_nat (List.length items))
  | _ => JUndefined
  end.

(* ===================================================================== *)
(** ** Coercions *)
(* ===================================================================== *)

Definition join_comma (a b : string) : string := a ++ "," ++ b.

(** [ToString], as a template literal applies it.  A plain object prints as
    [[object Object]] through [Object.prototype.toString]; when an own
    property named [toString] (necessarily not callable) hides that method,
    no primitive can be produced and the conversion throws.  An array
    prints its elements joined by commas, [undefined] and [null] elements
    as nothing. *)
Fixpoint ToString (v : JsVal) : Outcome string :=
  match v with
  | JUndefined => Returned "undefined"
  | JNull => Returned "null"
  | JBool true => Returned "true"
  | JBool false => Returned "false"
  | JNum n => Returned (Number_toString n)
  | JNaN => Returned "NaN"
  | JStr s => Returned s
  | JArr items =>
      (fix join (l : list JsVal) : Outcome string :=
         match l with
         | [] => Returned ""
         | x :: rest =>
             match (if nullish x then Returned "" else ToString x) with
             | Returned sx =>
                 match rest with
                 | [] => Returned sx
                 | _ :: _ =>
                     match join rest with
                     | Returned sr => Returned (join_comma sx sr)
                     | Thrown e => Thrown e
                     | Unfinished => Unfinished
                     end
                 end
             | Thrown e => Thrown e
             | Unfinished => Unfinished
             end
         end) items
  | JObj props =>
      if has_key "toString" props
      then Thrown (TypeError "Cannot convert object to primitive value")
      else Returned "[object Object]"
  end.

(** The value of a number after a coercion: an integer or [NaN]. *)
Definition of_number (n : option Z) : JsVal :=
  match n with
  | Some z => JNum z
  | None => JNaN
  end.

Section Coercions.

(** [StringToNumber] of ECMAScript (the numeric value a string denotes,
    [None] for [NaN]) is not part of this program. *)
Variable StringToNumber : string -> option Z.

(** [ToNumber], as [Math.min] and [/] apply it. *)
Definition ToNumber (v : JsVal) : Outcome (option Z) :=
  match v with
  | JUndefined => ret None
  | JNull => ret (Some 0)
  | JBool b => ret (Some (if b then 1 else 0))
  | JNum n => ret (Some n)
  | JNaN => ret None
  | JStr s => ret (StringToNumber s)
  | JArr _ => s <- ToString v ;; ret (StringToNumber s)
  | JObj props =>
      if has_key "toString" props
      then raise (TypeError "Cannot convert object to primitive value")
      else ret None
  end.

(** [Math.min(v, bound)] for an integer literal [bound]. *)
Definition Math_min (v : JsVal) (bound : Z) : Outcome JsVal :=
  n <- ToNumber v ;;
  ret (of_number (option_map (fun z => Z.min z bound) n)).

(** [v / d] for a positive integer literal [d]: the quotient as an exact
    rational.  For a power of two [d] and an integer [v] below 2^53 in
    magnitude this is the double JavaScript computes (the division only
    changes the exponent). *)
Definition divide (v : JsVal) (d : positive) : Outcome (option Q) :=
  n <- ToNumber v ;;
  ret (option_map (fun z => Qmake z d) n).

End Coercions.

(** [x.toFixed(f)] (Number.prototype.toFixed): with [n] the integer for
    which [n / 10^f - |x|] is closest to zero, the larger one on a tie,
    print [n] in decimal, left-padded with zeros to [f + 1] digits, with a
    point before the last [f] digits and a minus sign when [x < 0].
    [NaN] prints as [NaN].  (For [|x| >= 10^21] JavaScript switches to
    exponent notation; byte counts are far below.) *)
Definition round_half_up (x : Q) (f : nat) : Z :=
  let num := Z.abs (Qnum x) * 10 ^ Z.of_nat f in
  let den := Zpos (Qden x) in
  (2 * num + den) / (2 * den).

Fixpoint zeros (k : nat) : string :=
  match k with
  | O => EmptyString
  | S k' => String "0" (zeros k')
  end.

Definition pad_zeros (width : nat) (m : string) : string :=
  zeros (width - String.length m) ++ m.

Definition toFixed (x : option Q) (f : nat) : string :=
  match x with
  | None => "NaN"
  | Some q =>
      let sign := if Z.ltb (Qnum q) 0 then "-" else "" in
      let m := pad_zeros (S f) (Number_toString (round_half_up q f)) in
      let k := String.length m in
      let a := String.substring 0 (k - f) m in
      let b := String.substring (k - f) f m in
      sign ++ match f with
              | O => m
              | S _ => a ++ "." ++ b
              end
  end.

(** [encodeURIComponent]: every code unit outside
    [A-Z a-z 0-9 - _ . ! ~ * ' ( )] is replaced by the percent-escapes of
    its UTF-8 bytes (two bytes for a code unit in 128..255). *)
Definition hex_upper (n : nat) : ascii :=
  ascii_of_nat (if Nat.ltb n 10 then 48 + n else 55 + n).

Definition percent (byte : nat) : string :=
  String "%" (String (hex_upper (Nat.div byte 16))
                     (String (hex_upper (Nat.modulo byte 16)) EmptyString)).

Definition unreserved (c : ascii) : bool :=
  let n := nat_of_ascii c in
  (Nat.leb 65 n && Nat.leb n 90) || (Nat.leb 97 n && Nat.leb n 122)
  || (Nat.leb 48 n && Nat.leb n 57) || has_char c "-_.!~*'()".

Fixpoint encodeURIComponent_string (s : string) : string :=
  match s with
  | EmptyString => EmptyString
  | String c rest =>
      let n := nat_of_ascii c in
      (if unreserved c then String c EmptyString
       else if Nat.ltb n 128 then percent n
       else percent (192 + Nat.div n 64) ++ percent (128 + Nat.modulo n 64))
      ++ encodeURIComponent_string rest
  end.

Definition encodeURIComponent (v : JsVal) : Outcome string :=
  s <- ToString v ;; ret (encodeURIComponent_string s).

(* ===================================================================== *)
(** ** JSON.stringify *)
(* ===================================================================== *)

Definition dquote : string := String (ascii_of_nat 34) EmptyString.
Definition newline : string := String (ascii_of_nat 10) EmptyString.

Definition hex_lower (n : nat) : ascii :=
  ascii_of_nat (if Nat.ltb n 10 then 48 + n else 87 + n).

(** One code unit inside a JSON string literal ([QuoteJSONString]). *)
Definition escape_unit (c : ascii) : string :=
  let n := nat_of_ascii c in
  if Nat.eqb n 8 then "\b"
  else if Nat.eqb n 9 then "\t"
  else if Nat.eqb n 10 then "\n"
  else if Nat.eqb n 12 then "\f"
  else if Nat.eqb n 13 then "\r"
  else if Nat.eqb n 34 then "\" ++ dquote
  else if Nat.eqb n 92 then "\\"
  else if Nat.ltb n 32
       then "\u00" ++ String (hex_lower (Nat.div n 16))
                             (String (hex_lower (Nat.modulo n 16)) EmptyString)
  else String c EmptyString.

Fixpoint escape_units (s : string) : string :=
  match s with
  | EmptyString => EmptyString
  | String c rest => escape_unit c ++ escape_units rest
  end.

Definition QuoteJSONString (s : string) : string :=
  dquote ++ escape_units s ++ dquote.

Fixpoint join_with (sep : string) (parts : list string) : string :=
  match parts with
  | [] => EmptyString
  | [p] => p
  | p :: rest => p ++ sep ++ join_with sep rest
  end.

(** The text of an array or object from the texts of its parts: [open] and
    [close] are the brackets, [gap] the indentation unit ([""] for the
    compact form), [indent] the indentation of the enclosing level. *)
Definition bracket (open close gap indent : string) (parts : list string) : string :=
  match parts with
  | [] => open ++ close
  | _ :: _ =>
      if String.eqb gap "" then open ++ join_with "," parts ++ close
      else let inner := indent ++ gap in
           open ++ newline ++ inner
           ++ join_with ("," ++ newline ++ inner) parts
           ++ newline ++ indent ++ close
  end.

Definition member (gap key text : string) : string :=
  QuoteJSONString key ++ (if String.eqb gap "" then ":" else ": ") ++ text.

(** [SerializeJSONProperty]: [None] stands for [undefined], the result for
    a value JSON has no text for.  Such a property is left out of an
    object; such an element of an array is written [null]. *)
Fixpoint SerializeJSONProperty (gap indent : string) (v : JsVal) : option string :=
  match v with
  | JUndefined => None
  | JNull => Some "null"
  | JBool true => Some "true"
  | JBool false => Some "false"
  | JNum n => Some (Number_toString n)
  | JNaN => Some "null"
  | JStr s => Some (QuoteJSONString s)
  | JArr items =>
      Some (bracket "[" "]" gap indent
              ((fix elements (l : list JsVal) : list string :=
                  match l with
                  | [] => []
                  | x :: rest =>
                      match SerializeJSONProperty gap (indent ++ gap) x with
                      | Some t => t
                      | None => "null"
                      end :: elements rest
                  end) items))
  | JObj props =>
      Some (bracket "{" "}" gap indent
              ((fix members (l : list (string * JsVal)) : list string :=
                  match l with
                  | [] => []
                  | (k, x) :: rest =>
                      match SerializeJSONProperty gap (indent ++ gap) x with
                      | Some t => member gap k t :: members rest
                      | None => members rest
                      end
                  end) props))
  end.

(** [JSON.stringify(v)] and [JSON.stringify(v, null, 2)] for a value that
    has a JSON text; every call in the program passes an object. *)
Definition JSON_stringify (v : JsVal) (gap : string) : string :=
  match SerializeJSONProperty gap "" v with
  | Some text => text
  | None => EmptyString
  end.

Definition compact : string := "".
Definition two_spaces : string := "  ".

(** The properties of an object that reach its JSON text. *)
Definition serialized_keys (v : JsVal) : list string :=
  match v with
  | JObj props =>
      map fst (filter (fun kv => match snd kv with
                                 | JUndefined => false
                                 | _ => true
                                 end) props)
  | _ => []
  end.

(* ===================================================================== *)
(** ** Minimal data extractors *)
(* ===================================================================== *)

(** [video.created_time?.split("T")[0]] and [v.uri?.split("/").pop()]: one
    optional chain each, so an absent receiver makes the whole expression
    [undefined]. *)
Definition date_part (created_time : JsVal) : Outcome JsVal :=
  opt_chain created_time (fun t => parts <- call_split t "T" ;; ret (first parts)).

Definition uri_tail (uri : JsVal) : Outcome JsVal :=
  opt_chain uri (fun u => segs <- call_split u "/" ;; ret (pop segs)).

(** The first two statements of both extractors, on the [uri] field [u]
    of the resource:
    [const uri = u || ""; const id = uri.split("/").pop() || "";] *)
Definition defaulted_id (u : JsVal) : Outcome JsVal :=
  let uri := or_else u (JStr "") in
  segs <- call_split uri "/" ;;
  ret (or_else (pop segs) (JStr "")).

Definition extractVideoMinimal (video : JsVal) : Outcome JsVal :=
  video_uri <- get video "uri" ;;
  id <- defaulted_id video_uri ;;
  name <- get video "name" ;;
  duration <- get video "duration" ;;
  created_time <- get video "created_time" ;;
  created <- date_part created_time ;;
  parent_folder <- get video "parent_folder" ;;
  folder <- opt_chain parent_folder (fun p => get p "name") ;;
  ret (JObj [("id", id);
             ("name", or_else name (JStr "Untitled"));
             ("duration", or_else duration (JNum 0));
             ("created", or_else created (JStr ""));
             ("folder", folder)]).

(** [folder.metadata?.connections?.videos?.total] *)
Definition videos_total (resource : JsVal) : Outcome JsVal :=
  metadata <- get resource "metadata" ;;
  opt_chain metadata (fun m =>
    connections <- get m "connections" ;;
    opt_chain connections (fun c =>
      videos <- get c "videos" ;;
      opt_chain videos (fun v => get v "total"))).

Definition extractFolderMinimal (folder : JsVal) : Outcome JsVal :=
  folder_uri <- get folder "uri" ;;
  id <- defaulted_id folder_uri ;;
  name <- get folder "name" ;;
  total <- videos_total folder ;;
  ret (JObj [("id", id);
             ("name", or_else name (JStr "Untitled"));
             ("video_count", or_else total (JNum 0))]).

(** The arrow function that [handleGetFolderVideos] maps over the page:
    [(v) => ({ id: v.uri?.split("/").pop(), name: v.name,
               duration: v.duration,
               created: v.created_time?.split("T")[0] })]. *)
Definition folderVideoRecord (v : JsVal) : Outcome JsVal :=
  v_uri <- get v "uri" ;;
  id <- uri_tail v_uri ;;
  name <- get v "name" ;;
  duration <- get v "duration" ;;
  created_time <- get v "created_time" ;;
  created <- date_part created_time ;;
  ret (JObj [("id", id); ("name", name); ("duration", duration);
             ("created", created)]).

(* ===================================================================== *)
(** ** The remote API *)
(* ===================================================================== *)

(** What [vimeoRequest] hands to [https.request]; the host and the headers
    are the same on every request.  [written] is the text given to
    [req.write], if any. *)
Record Request : Type :=
  { path : string; method : string; written : option string }.

Record VimeoResponse : Type := { status : Z; data : JsVal }.

(** What the network does with a request: a response arrives, with a
    status code (possibly none) and a body, of which [parsed] is the value
    of [JSON.parse] ([None] for an empty body or one that is not JSON); or
    the request emits [error]. *)
Inductive NetReply : Type :=
| Answer (statusCode : option Z) (parsed : option JsVal)
| NetworkError (e : JsError).

(** The upstream service: its reply to a request may depend on the
    requests it has already received. *)
Definition Network : Type := list Request -> Request -> NetReply.

(** An asynchronous computation: it runs against the list of requests sent
    so far and extends it. *)
Definition Task (A : Type) : Type := list Request -> Outcome A * list Request.

#[global] Instance Monad_Task : Monad Task :=
  {| ret := fun A a log => (Returned a, log);
     bind := fun A B c k log =>
       match c log with
       | (Returned a, log') => k a log'
       | (Thrown e, log') => (Thrown e, log')
       | (Unfinished, log') => (Unfinished, log')
       end |}.

(** [try { c } catch (error) { h error }] *)
#[global] Instance Exc_Task : MonadExc JsError Task :=
  {| raise := fun A e log => (Thrown e, log);
     catch := fun A c h log =>
       match c log with
       | (Thrown e, log') => h e log'
       | other => other
       end |}.

Definition lift {A : Type} (c : Outcome A) : Task A := fun log => (c, log).

Definition unfinished {A : Type} : Task A := fun log => (Unfinished, log).

Definition items_of (v : JsVal) : list JsVal :=
  match v with
  | JArr items => items
  | _ => []
  end.

(** [{ key: value, ... }] *)
Definition obj (props : list (string * JsVal)) : JsVal := JObj props.

Definition is_status (res : VimeoResponse) (code : Z) : bool :=
  Z.eqb (status res) code.

(** The request [vimeoRequest] sends, and the response it resolves with
    for a network answer ([res.statusCode || 0], and the parsed body or
    [{}]). *)
Definition request_of (endpoint method : string) (body : JsVal) : Request :=
  {| path := endpoint;
     method := method;
     written := if truthy body
                then SerializeJSONProperty compact "" body
                else None |}.

Definition response_of (statusCode : option Z) (parsed : option JsVal)
  : VimeoResponse :=
  {| status := match statusCode with Some c => c | None => 0 end;
     data := match parsed with Some v => v | None => obj [] end |}.

(* ===================================================================== *)
(** ** The server *)
(* ===================================================================== *)

Section Server.

Variable StringToNumber : string -> option Z.
Variable upstream : Network.

(** [vimeoRequest(endpoint, method = "GET", body?)]: one HTTPS request,
    with [JSON.stringify(body)] written to it when [body] is truthy.
    The promise resolves with the status ([0] when the response has
    none) and the parsed body ([{}] when there is nothing to parse),
    whatever the status is; it rejects when the request emits
    [error]. *)
Definition vimeoRequest (endpoint method : string) (body : JsVal)
  : Task VimeoResponse :=
  fun log =>
    let req := request_of endpoint method body in
    match upstream log req with
    | Answer statusCode parsed =>
        (Returned (response_of statusCode parsed), (log ++ [req])%list)
    | NetworkError e => (Thrown e, (log ++ [req])%list)
    end.

(** [args.page || 1] and [Math.min(args.per_page || fallback, 100)], the
    first two statements of the three listing handlers. *)
Definition page_of (args : JsVal) : Outcome JsVal :=
  p <- get args "page" ;; ret (or_else p (JNum 1)).

Definition perPage_of (args : JsVal) (fallback : Z) : Outcome JsVal :=
  pp <- get args "per_page" ;;
  Math_min StringToNumber (or_else pp (JNum fallback)) 100.

(** *** list_folders *)

Definition folders_endpoint (page : Z) : string :=
  "/me/projects?per_page=100&page=" ++ Number_toString page.

(** The [while (hasMore)] loop, on the variables it updates.  [fuel]
    bounds the number of iterations. *)
Fixpoint listFolders_loop (fuel : nat) (folders : list JsVal) (page : Z)
         (hasMore : bool) : Task (list JsVal) :=
  if hasMore then
    match fuel with
    | O => unfinished
    | S fuel' =>
        res <- vimeoRequest (folders_endpoint page) "GET" JUndefined ;;
        listed <- lift (if is_status res 200 then get (data res) "data"
                        else ret (JBool false)) ;;
        if truthy listed then
          minimal <- lift (call_map listed extractFolderMinimal) ;;
          listFolders_loop fuel' (folders ++ items_of minimal)%list (page + 1)
                           (match array_length listed with
                            | JNum n => Z.eqb n 100
                            | _ => false
                            end)
        else
          listFolders_loop fuel' folders page false
    end
  else ret folders.

Definition handleListFolders (fuel : nat) : Task string :=
  folders <- listFolders_loop fuel [] 1 true ;;
  ret (JSON_stringify
         (obj [("total", JNum (Z.of_nat (List.length folders)));
               ("folders", JArr folders)])
         two_spaces).

(** *** list_videos *)

Definition video_fields : string :=
  "&fields=uri,name,duration,created_time".

Definition handleListVideos (args : JsVal) : Task string :=
  page <- lift (page_of args) ;;
  perPage <- lift (perPage_of args 50) ;;
  endpoint <- lift (
    sPerPage <- ToString perPage ;;
    sPage <- ToString page ;;
    let endpoint := "/me/videos?per_page=" ++ sPerPage ++ "&page=" ++ sPage
                    ++ video_fields ++ ",parent_folder" in
    folder_id <- get args "folder_id" ;;
    endpoint <- (if truthy folder_id then
                   sFolder <- ToString folder_id ;;
                   ret ("/me/projects/" ++ sFolder ++ "/videos?per_page="
                        ++ sPerPage ++ "&page=" ++ sPage ++ video_fields)
                 else ret endpoint) ;;
    search <- get args "search" ;;
    if truthy search then
      q <- encodeURIComponent search ;;
      ret (endpoint ++ "&query=" ++ q)
    else ret endpoint) ;;
  res <- vimeoRequest endpoint "GET" JUndefined ;;
  if negb (is_status res 200) then
    ret (JSON_stringify (obj [("error", JStr "Failed to fetch videos");
                              ("status", JNum (status res))]) compact)
  else
    lift (
      listed <- get (data res) "data" ;;
      mapped <- opt_chain listed (fun l => call_map l extractVideoMinimal) ;;
      let videos := or_else mapped (JArr []) in
      res_total <- get (data res) "total" ;;
      let total := or_else res_total (array_length videos) in
      ret (JSON_stringify (obj [("total", total); ("page", page);
                                ("per_page", perPage); ("videos", videos)])
                          two_spaces)).

(** *** get_video *)

(** When the body is a JSON string, [v.link] is the inherited method
    [String.prototype.link]; [JSON.stringify] leaves a function out just
    as it leaves [undefined] out, which is what [get] returns here. *)
Definition handleGetVideo (args : JsVal) : Task string :=
  video_id <- lift (get args "video_id") ;;
  sId <- lift (ToString video_id) ;;
  res <- vimeoRequest
           ("/videos/" ++ sId
            ++ "?fields=uri,name,description,duration,created_time,parent_folder,tags,privacy,link")
           "GET" JUndefined ;;
  if negb (is_status res 200) then
    ret (JSON_stringify (obj [("error", JStr "Video not found");
                              ("status", JNum (status res))]) compact)
  else
    let v := data res in
    lift (
      id <- get args "video_id" ;;
      name <- get v "name" ;;
      v_description <- get v "description" ;;
      description <- opt_chain v_description (fun d => call_substring0 d 500) ;;
      duration <- get v "duration" ;;
      created_time <- get v "created_time" ;;
      created <- date_part created_time ;;
      parent_folder <- get v "parent_folder" ;;
      folder <- opt_chain parent_folder (fun p => get p "name") ;;
      v_tags <- get v "tags" ;;
      tags <- opt_chain v_tags (fun ts => call_map ts (fun t => get t "name")) ;;
      v_privacy <- get v "privacy" ;;
      privacy <- opt_chain v_privacy (fun p => get p "view") ;;
      link <- get v "link" ;;
      ret (JSON_stringify
             (obj [("id", id); ("name", name);
                   ("description", or_else description (JStr ""));
                   ("duration", duration); ("created", created);
                   ("folder", folder); ("tags", or_else tags (JArr []));
                   ("privacy", privacy); ("link", link)])
             two_spaces)).

(** *** get_folder_videos *)

Definition handleGetFolderVideos (args : JsVal) : Task string :=
  page <- lift (page_of args) ;;
  perPage <- lift (perPage_of args 50) ;;
  sFolder <- lift (folder_id <- get args "folder_id" ;; ToString folder_id) ;;
  folderRes <- vimeoRequest
                 ("/me/projects/" ++ sFolder
                  ++ "?fields=name,metadata.connections.videos.total")
                 "GET" JUndefined ;;
  folder_name <- lift (get (data folderRes) "name") ;;
  let folderName := or_else folder_name (JStr "Unknown") in
  folder_total <- lift (videos_total (data folderRes)) ;;
  let totalVideos := or_else folder_total (JNum 0) in
  endpoint <- lift (
    sFolder <- (folder_id <- get args "folder_id" ;; ToString folder_id) ;;
    sPerPage <- ToString perPage ;;
    sPage <- ToString page ;;
    ret ("/me/projects/" ++ sFolder ++ "/videos?per_page=" ++ sPerPage
         ++ "&page=" ++ sPage ++ video_fields)) ;;
  res <- vimeoRequest endpoint "GET" JUndefined ;;
  if negb (is_status res 200) then
    ret (JSON_stringify (obj [("error", JStr "Failed to fetch folder videos");
                              ("status", JNum (status res))]) compact)
  else
    lift (
      listed <- get (data res) "data" ;;
      mapped <- opt_chain listed (fun l => call_map l folderVideoRecord) ;;
      let videos := or_else mapped (JArr []) in
      ret (JSON_stringify (obj [("folder", folderName); ("total", totalVideos);
                                ("page", page); ("per_page", perPage);
                                ("videos", videos)])
                          two_spaces)).

(** *** move_video *)

Definition handleMoveVideo (args : JsVal) : Task string :=
  sFolder <- lift (folder_id <- get args "folder_id" ;; ToString folder_id) ;;
  sVideo <- lift (video_id <- get args "video_id" ;; ToString video_id) ;;
  res <- vimeoRequest ("/me/projects/" ++ sFolder ++ "/items") "POST"
           (obj [("items", JArr [obj [("uri", JStr ("/videos/" ++ sVideo))]])]) ;;
  let success := is_status res 204 || is_status res 200 || is_status res 201 in
  lift (
    video_id <- get args "video_id" ;;
    folder_id <- get args "folder_id" ;;
    ret (JSON_stringify (obj [("success", JBool success);
                              ("video_id", video_id);
                              ("folder_id", folder_id)]) compact)).

(** *** create_folder *)

Definition handleCreateFolder (args : JsVal) : Task string :=
  name <- lift (get args "name") ;;
  res <- vimeoRequest "/me/projects" "POST" (obj [("name", name)]) ;;
  if is_status res 201 then
    lift (
      res_uri <- get (data res) "uri" ;;
      id <- uri_tail res_uri ;;
      name <- get args "name" ;;
      ret (JSON_stringify (obj [("success", JBool true); ("id", id);
                                ("name", name)]) compact))
  else
    exists_already <- lift (
      if is_status res 400 then
        res_error <- get (data res) "error" ;;
        opt_chain res_error (fun e => call_includes e "already exists")
      else ret (JBool false)) ;;
    if truthy exists_already then
      ret (JSON_stringify (obj [("success", JBool false);
                                ("error", JStr "Folder already exists")])
                          compact)
    else
      lift (
        res_error <- get (data res) "error" ;;
        ret (JSON_stringify
               (obj [("success", JBool false);
                     ("error", or_else res_error (JStr "Failed to create folder"))])
               compact)).

(** *** update_video *)

(** [if (args.k) body.k = args.k;] on the object under construction. *)
Definition assign_if_truthy (args : JsVal) (k : string)
           (body : list (string * JsVal)) : Outcome (list (string * JsVal)) :=
  v <- get args k ;;
  ret (if truthy v then (body ++ [(k, v)])%list else body).

Definition updateVideoBody (args : JsVal) : Outcome JsVal :=
  body <- assign_if_truthy args "name" [] ;;
  body <- assign_if_truthy args "description" body ;;
  body <- assign_if_truthy args "tags" body ;;
  ret (obj body).

Definition handleUpdateVideo (args : JsVal) : Task string :=
  body <- lift (updateVideoBody args) ;;
  sVideo <- lift (video_id <- get args "video_id" ;; ToString video_id) ;;
  res <- vimeoRequest ("/videos/" ++ sVideo) "PATCH" body ;;
  let success := is_status res 200 in
  lift (
    video_id <- get args "video_id" ;;
    ret (JSON_stringify (obj [("success", JBool success);
                              ("video_id", video_id)]) compact)).

(** *** search_videos *)

Definition handleSearchVideos (args : JsVal) : Task string :=
  page <- lift (page_of args) ;;
  perPage <- lift (perPage_of args 25) ;;
  endpoint <- lift (
    query <- get args "query" ;;
    q <- encodeURIComponent query ;;
    sPerPage <- ToString perPage ;;
    sPage <- ToString page ;;
    ret ("/me/videos?query=" ++ q ++ "&per_page=" ++ sPerPage ++ "&page="
         ++ sPage ++ video_fields ++ ",parent_folder")) ;;
  res <- vimeoRequest endpoint "GET" JUndefined ;;
  if negb (is_status res 200) then
    ret (JSON_stringify (obj [("error", JStr "Search failed");
                              ("status", JNum (status res))]) compact)
  else
    lift (
      listed <- get (data res) "data" ;;
      mapped <- opt_chain listed (fun l => call_map l extractVideoMinimal) ;;
      let videos := or_else mapped (JArr []) in
      res_total <- get (data res) "total" ;;
      let total := or_else res_total (array_length videos) in
      query <- get args "query" ;;
      ret (JSON_stringify (obj [("query", query); ("total", total);
                                ("page", page); ("per_page", perPage);
                                ("videos", videos)])
                          two_spaces)).

(** *** get_stats *)

(** [userRes.data.upload_quota?.space?.[field] || 0] *)
Definition quota_space (user : JsVal) (field : string) : Outcome JsVal :=
  upload_quota <- get user "upload_quota" ;;
  v <- opt_chain upload_quota (fun u =>
         space <- get u "space" ;;
         opt_chain space (fun s => get s field)) ;;
  ret (or_else v (JNum 0)).

(** [(bytes / 1073741824).toFixed(2)] *)
Definition gigabytes (bytes : JsVal) : Outcome string :=
  x <- divide StringToNumber bytes 1073741824 ;;
  ret (toFixed x 2).

Definition handleGetStats : Task string :=
  videoRes <- vimeoRequest "/me/videos?per_page=1&fields=uri" "GET" JUndefined ;;
  video_total <- lift (get (data videoRes) "total") ;;
  let totalVideos := or_else video_total (JNum 0) in
  folderRes <- vimeoRequest "/me/projects?per_page=1" "GET" JUndefined ;;
  folder_total <- lift (get (data folderRes) "total") ;;
  let totalFolders := or_else folder_total (JNum 0) in
  userRes <- vimeoRequest "/me?fields=upload_quota" "GET" JUndefined ;;
  used <- lift (quota_space (data userRes) "used") ;;
  max <- lift (quota_space (data userRes) "max") ;;
  lift (
    storage_used_gb <- gigabytes used ;;
    storage_max_gb <- gigabytes max ;;
    ret (JSON_stringify (obj [("total_videos", totalVideos);
                              ("total_folders", totalFolders);
                              ("storage_used_gb", JStr storage_used_gb);
                              ("storage_max_gb", JStr storage_max_gb)])
                        two_spaces)).

(* =================================================================== *)
(** ** Dispatch *)
(* =================================================================== *)

(** The names of [TOOLS], in declaration order. *)
Definition TOOLS : list string :=
  ["list_folders"; "list_videos"; "get_video"; "get_folder_videos";
   "move_video"; "create_folder"; "update_video"; "search_videos";
   "get_stats"].

(** [{ content: [{ type: "text", text }] }] *)
Definition text_content (text : string) : JsVal :=
  obj [("content", JArr [obj [("type", JStr "text"); ("text", JStr text)]])].

(** The [switch (name)] of the request handler. *)
Definition run_tool (fuel : nat) (name : string) (args : JsVal) : Task string :=
  if String.eqb name "list_folders" then handleListFolders fuel
  else if String.eqb name "list_videos" then handleListVideos (or_else args (obj []))
  else if String.eqb name "get_video" then handleGetVideo args
  else if String.eqb name "get_folder_videos" then handleGetFolderVideos args
  else if String.eqb name "move_video" then handleMoveVideo args
  else if String.eqb name "create_folder" then handleCreateFolder args
  else if String.eqb name "update_video" then handleUpdateVideo args
  else if String.eqb name "search_videos" then handleSearchVideos args
  else if String.eqb name "get_stats" then handleGetStats
  else ret (JSON_stringify (obj [("error", JStr ("Unknown tool: " ++ name))])
                           compact).

(** The handler registered for [CallToolRequestSchema], on the [name] and
    [arguments] of [request.params] ([JUndefined] for absent
    arguments). *)
Definition callTool (fuel : nat) (name : string) (args : JsVal) : Task JsVal :=
  catch (result <- run_tool fuel name args ;;
         ret (text_content result))
        (fun error =>
           ret (text_content
                  (JSON_stringify (obj [("error", JStr (message error))])
                                  compact))).

End Server.

(* ===================================================================== *)
(** ** Vocabulary of the specification *)
(* ===================================================================== *)

(** The value of property [k] of an object with properties [props]. *)
Definition field (k : string) (props : list (string * JsVal)) : JsVal :=
  match lookup k props with
  | Some v => v
  | None => JUndefined
  end.

Definition absent (keys : list string) (props : list (string * JsVal)) : Prop :=
  forall k, In k keys -> lookup k props = None.

Definition is_string (v : JsVal) : bool :=
  match v with
  | JStr _ => true
  | _ => false
  end.

(** A field that is absent, [null] or a string. *)
Definition string_or_absent (v : JsVal) : bool := nullish v || is_string v.

(** A value on which [(v || "").split(...)] can be called: a string, or
    anything falsy. *)
Definition string_or_falsy (v : JsVal) : bool := negb (truthy v) || is_string v.

(** An argument declared [number] in the input schema: absent, or an
    integer that a double holds exactly. *)
Definition number_or_absent (v : JsVal) : bool :=
  match v with
  | JUndefined | JNull => true
  | JNum n => Z.ltb (Z.abs n) (2 ^ 53)
  | _ => false
  end.

Definition get_request (endpoint : string) : Request :=
  request_of endpoint "GET" JUndefined.

(** *** Minimal records *)

(** [id] is the trailing path segment of [uri]: what follows the last
    slash, or all of [uri] when it has no slash. *)
Definition trailing_segment (uri id : string) : Prop :=
  has_char "/" id = false /\
  (uri = id \/ exists front, uri = front ++ "/" ++ id).

(** What the identifier derived from a [uri] field is: its trailing path
    segment when the field is a string (so the empty string for an empty
    one), the empty string when there is none. *)
Definition identifies (uri : JsVal) (id : string) : Prop :=
  match uri with
  | JStr s => trailing_segment s id
  | _ => id = ""
  end.

(** An upstream resource whose [uri] and [created_time], when present, are
    strings, as the remote API documents them. *)
Definition resource_fields_ok (props : list (string * JsVal)) : bool :=
  string_or_absent (field "uri" props)
  && string_or_absent (field "created_time" props).

(** The resources on which the extractors return, exactly. *)
Definition video_fields_ok (props : list (string * JsVal)) : bool :=
  string_or_falsy (field "uri" props)
  && string_or_absent (field "created_time" props).

Definition folder_fields_ok (props : list (string * JsVal)) : bool :=
  string_or_falsy (field "uri" props).

(** The minimal records of a resource that has none of the fields the
    extractors read. *)
Definition default_video : JsVal :=
  obj [("id", JStr ""); ("name", JStr "Untitled"); ("duration", JNum 0);
       ("created", JStr ""); ("folder", JUndefined)].

Definition default_folder : JsVal :=
  obj [("id", JStr ""); ("name", JStr "Untitled"); ("video_count", JNum 0)].

(** *** list_folders *)

Definition folders_request (page : Z) : Request :=
  get_request (folders_endpoint page).

(** The first [n] page requests. *)
Definition page_requests (n : nat) : list Request :=
  map (fun i => folders_request (Z.of_nat i)) (seq 1 n).

(** A page fetch that fails: the status is not 200, or the body carries no
    list. *)
Definition failed_page (reply : NetReply) : Prop :=
  exists statusCode parsed,
    reply = Answer statusCode parsed
    /\ (status (response_of statusCode parsed) <> 200
        \/ exists body, data (response_of statusCode parsed) = JObj body
                        /\ truthy (field "data" body) = false).

(** A page fetch that succeeds with the folders [items], of which
    [minimal] are the minimal records. *)
Definition folder_page (reply : NetReply) (items minimal : list JsVal) : Prop :=
  exists statusCode parsed body,
    reply = Answer statusCode parsed
    /\ status (response_of statusCode parsed) = 200
    /\ data (response_of statusCode parsed) = JObj body
    /\ field "data" body = JArr items
    /\ mapM extractFolderMinimal items = Returned minimal.

(** [listing upstream log page folders requests]: asked for the pages
    [page], [page + 1], ... after the requests [log], the upstream serves
    full pages of 100 folders up to a first page that is short or fails;
    [folders] are the minimal records of all folders served and [requests]
    the page requests up to and including that of the last page. *)
Inductive listing (upstream : Network) (log : list Request) (page : Z)
  : list JsVal -> list Request -> Prop :=
| listing_failed :
    failed_page (upstream log (folders_request page)) ->
    listing upstream log page [] [folders_request page]
| listing_short items minimal :
    folder_page (upstream log (folders_request page)) items minimal ->
    List.length items <> 100%nat ->
    listing upstream log page minimal [folders_request page]
| listing_full items minimal folders requests :
    folder_page (upstream log (folders_request page)) items minimal ->
    List.length items = 100%nat ->
    listing upstream (log ++ [folders_request page])%list (page + 1)
            folders requests ->
    listing upstream log page (minimal ++ folders)%list
            (folders_request page :: requests).

Definition list_folders_result (folders : list JsVal) : string :=
  JSON_stringify (obj [("total", JNum (Z.of_nat (List.length folders)));
                       ("folders", JArr folders)])
                 two_spaces.

(** *** list_videos *)

(** The page size [list_videos] sends for the [per_page] argument. *)
Definition per_page_sent (per_page : JsVal) : Z :=
  match per_page with
  | JNum n => if Z.eqb n 0 then 50 else Z.min n 100
  | _ => 50
  end.

(** Arguments of [list_videos] of the declared types. *)
Definition list_videos_args_ok (args : list (string * JsVal)) : bool :=
  number_or_absent (field "page" args)
  && number_or_absent (field "per_page" args)
  && string_or_absent (field "folder_id" args)
  && string_or_absent (field "search" args).

(** *** get_video *)

(** [d] is the first [n] characters of [s] (all of [s] when it is
    shorter). *)
Definition first_chars (n : nat) (s d : string) : Prop :=
  (exists rest, s = d ++ rest)
  /\ String.length d = Nat.min n (String.length s).

(** The description [get_video] reports for the upstream one. *)
Definition reported_description (upstream_description : JsVal) (d : string) : Prop :=
  match upstream_description with
  | JStr s => first_chars 500 s d
  | _ => d = ""
  end.

(** A tag list [get_video] can map: absent, or an array without [null]
    elements. *)
Definition tags_ok (tags : JsVal) : bool :=
  match tags with
  | JUndefined | JNull => true
  | JArr items => forallb (fun t => negb (nullish t)) items
  | _ => false
  end.

(** A video body with the fields [get_video] calls methods on of the
    documented types. *)
Definition video_body_ok (body : list (string * JsVal)) : bool :=
  string_or_absent (field "description" body)
  && string_or_absent (field "created_time" body)
  && tags_ok (field "tags" body).

Definition video_endpoint (video_id : string) : string :=
  "/videos/" ++ video_id
  ++ "?fields=uri,name,description,duration,created_time,parent_folder,tags,privacy,link".

(** *** create_folder *)

Definition create_request (name : JsVal) : Request :=
  request_of "/me/projects" "POST" (obj [("name", name)]).

(** The identifier [create_folder] reports for the [uri] of the response:
    its trailing path segment, or nothing when the response has none. *)
Definition reported_id (uri id : JsVal) : Prop :=
  match uri with
  | JStr u => exists i, id = JStr i /\ trailing_segment u i
  | _ => id = JUndefined
  end.

Definition already_exists_result : string :=
  JSON_stringify (obj [("success", JBool false);
                       ("error", JStr "Folder already exists")]) compact.

Definition create_failed_result (error : JsVal) : string :=
  JSON_stringify (obj [("success", JBool false); ("error", error)]) compact.

(** *** update_video *)

Definition is_update_field (k : string) : bool :=
  existsb (String.eqb k) ["name"; "description"; "tags"].

(** The fields of an [update_video] call that reach the request body: those
    among [name], [description] and [tags] whose value is truthy. *)
Definition kept_fields (args : list (string * JsVal)) : list (string * JsVal) :=
  flat_map (fun k => if truthy (field k args) then [(k, field k args)] else [])
           ["name"; "description"; "tags"].

Definition update_request (video_id : string) (body : JsVal) : Request :=
  request_of ("/videos/" ++ video_id) "PATCH" body.

(** *** get_stats *)

(** [n] hundredths is the multiple of 0.01 nearest to [bytes / 2^30], the
    larger one on a tie. *)
Definition nearest_hundredth (bytes n : Z) : Prop :=
  2 ^ 31 * n <= 200 * bytes + 2 ^ 30 < 2 ^ 31 * (n + 1).

(** [text] is [n] hundredths written with two decimals: the decimal digits
    of [n], left-padded with zeros to three digits, with a point before the
    last two. *)
Definition two_decimals (n : Z) (text : string) : Prop :=
  exists whole fraction,
    text = whole ++ "." ++ fraction
    /\ String.length fraction = 2%nat
    /\ whole ++ fraction = pad_zeros 3 (Number_toString n).

Definition gigabytes_text (bytes : Z) (text : string) : Prop :=
  exists n, nearest_hundredth bytes n /\ two_decimals n text.

(** The three requests of [get_stats]. *)
Definition videos_probe : Request := get_request "/me/videos?per_page=1&fields=uri".
Definition folders_probe : Request := get_request "/me/projects?per_page=1".
Definition quota_request : Request := get_request "/me?fields=upload_quota".

Definition stats_requests : list Request :=
  [videos_probe; folders_probe; quota_request].

(** *** Dispatch *)

Definition error_result (msg : string) : JsVal :=
  text_content (JSON_stringify (obj [("error", JStr msg)]) compact).

(* ===================================================================== *)
(** ** Sample data and upstreams *)
(* ===================================================================== *)

Definition sample_video : list (string * JsVal) :=
  [("uri", JStr "/videos/123"); ("name", JStr "Intro");
   ("duration", JNum 90);
   ("created_time", JStr "2024-01-02T03:04:05+00:00")].

(** A folder without a name and without the inner levels of its
    metadata. *)
Definition sparse_folder : list (string * JsVal) :=
  [("uri", JStr "/users/1/projects/77");
   ("metadata", obj [("connections", obj [])])].

(** A [StringToNumber] for runs in which no string is converted. *)
Definition no_numeric_strings : string -> option Z := fun _ => None.

(** A network that answers every request with status 200 and an empty
    object. *)
Definition always_ok : Network :=
  fun _ _ => Answer (Some 200) (Some (obj [])).

(** A network that answers every request with status 500 and no body. *)
Definition always_500 : Network := fun _ _ => Answer (Some 500) None.

(** A network on which every request fails at the transport level. *)
Definition unreachable : Network :=
  fun _ _ => NetworkError {| err_name := "Error";
                             message := "connect ECONNREFUSED" |}.

(** A network that answers every request with 201 and a new folder. *)
Definition created_789 : Network :=
  fun _ _ => Answer (Some 201)
                    (Some (obj [("uri", JStr "/users/1/projects/789");
                                ("name", JStr "Demos")])).

(** A network that refuses every request with 400 because the folder
    exists. *)
Definition folder_exists : Network :=
  fun _ _ => Answer (Some 400)
                    (Some (obj [("error",
                                 JStr "A folder with that name already exists.")])).

Fixpoint replicate (n : nat) (s : string) : string :=
  match n with
  | O => EmptyString
  | S n' => s ++ replicate n' s
  end.

(** A network that answers every request with a video whose description
    has 600 characters. *)
Definition long_description : Network :=
  fun _ _ => Answer (Some 200)
                    (Some (obj [("uri", JStr "/videos/42");
                                ("name", JStr "Intro");
                                ("description", JStr (replicate 600 "a"));
                                ("tags", JArr [obj [("name", JStr "demo")]])])).

(** An account with 12 videos in 3 folders that uses 1 GiB of 5 GiB. *)
Definition one_gigabyte_used : Network :=
  fun _ req =>
    if String.eqb (path req) "/me?fields=upload_quota" then
      Answer (Some 200)
             (Some (obj [("upload_quota",
                          obj [("space", obj [("used", JNum 1073741824);
                                              ("max", JNum 5368709120)])])]))
    else if String.eqb (path req) "/me/projects?per_page=1" then
      Answer (Some 200) (Some (obj [("total", JNum 3); ("data", JArr [])]))
    else
      Answer (Some 200) (Some (obj [("total", JNum 12); ("data", JArr [])])).

(** The mock upstream of the end-to-end scenario: 100 folders on page 1,
    none on any other page. *)
Definition mock_folder (i : nat) : JsVal :=
  obj [("uri", JStr ("/users/1/projects/" ++ Number_toString (Z.of_nat i)));
       ("name", JStr ("Folder " ++ Number_toString (Z.of_nat i)));
       ("metadata",
        obj [("connections",
              obj [("videos", obj [("total", JNum (Z.of_nat i))])])])].

Definition mock_minimal (i : nat) : JsVal :=
  obj [("id", JStr (Number_toString (Z.of_nat i)));
       ("name", JStr ("Folder " ++ Number_toString (Z.of_nat i)));
       ("video_count", JNum (Z.of_nat i))].

Definition hundred_folders : Network :=
  fun _ req =>
    if String.eqb (path req) (folders_endpoint 1) then
      Answer (Some 200)
             (Some (obj [("total", JNum 100);
                         ("data", JArr (map mock_folder (seq 1 100)))]))
    else
      Answer (Some 200) (Some (obj [("total", JNum 100); ("data", JArr [])])).

(* ===================================================================== *)
(** ** Further vocabulary *)
(* ===================================================================== *)

(** [v.k] for a value [v] that is neither [undefined] nor [null], and
    [v?.k]. *)
Definition prop (v : JsVal) (k : string) : JsVal :=
  match v with
  | JObj props => field k props
  | _ => JUndefined
  end.

Definition opt_prop (v : JsVal) (k : string) : JsVal :=
  if nullish v then JUndefined else prop v k.

(** *** list_folders, continued *)

(** [full_pages upstream log page n folders]: asked for the pages [page],
    ..., [page + n - 1] after the requests [log], the upstream serves [n]
    full pages of 100 folders, with minimal records [folders]. *)
Inductive full_pages (upstream : Network) (log : list Request) (page : Z)
  : nat -> list JsVal -> Prop :=
| full_pages_none : full_pages upstream log page 0 []
| full_pages_more items minimal n folders :
    folder_page (upstream log (folders_request page)) items minimal ->
    List.length items = 100%nat ->
    full_pages upstream (log ++ [folders_request page])%list (page + 1)
               n folders ->
    full_pages upstream log page (S n) (minimal ++ folders)%list.

(** An upstream that has a full page of folders for every request. *)
Definition always_full (upstream : Network) : Prop :=
  forall log page,
    exists items minimal,
      folder_page (upstream log (folders_request page)) items minimal
      /\ List.length items = 100%nat.

Definition endless_folders : Network :=
  fun _ _ => Answer (Some 200)
                    (Some (obj [("data", JArr (map mock_folder (seq 1 100)))])).

(** A network that serves one full page of folders and then fails at the
    transport level. *)
Definition drops_after_first_page : Network :=
  fun log req =>
    match log with
    | [] => Answer (Some 200)
                   (Some (obj [("data", JArr (map mock_folder (seq 1 100)))]))
    | _ :: _ => NetworkError {| err_name := "Error"; message := "socket hang up" |}
    end.

(** A network that refuses every request with 401. *)
Definition unauthorized : Network :=
  fun _ _ => Answer (Some 401)
                    (Some (obj [("error", JStr "You must provide a valid authenticated access token.")])).

(** *** move_video *)

Definition move_request (folder_id video_id : string) : Request :=
  request_of ("/me/projects/" ++ folder_id ++ "/items") "POST"
             (obj [("items", JArr [obj [("uri", JStr ("/videos/" ++ video_id))]])]).

(** A network that answers every request with 204 and no body. *)
Definition no_content : Network := fun _ _ => Answer (Some 204) None.

(** *** Paging arguments *)

(** The page number and the page size the listing handlers use for the
    [page] and [per_page] arguments, [fallback] being the default size. *)
Definition page_sent (page : JsVal) : Z :=
  match page with
  | JNum n => if Z.eqb n 0 then 1 else n
  | _ => 1
  end.

Definition page_size (fallback : Z) (per_page : JsVal) : Z :=
  Z.min (match per_page with
         | JNum n => if Z.eqb n 0 then fallback else n
         | _ => fallback
         end) 100.

Definition paging_args_ok (args : list (string * JsVal)) : bool :=
  number_or_absent (field "page" args)
  && number_or_absent (field "per_page" args).

(** *** get_folder_videos *)

Definition folder_info_request (folder_id : string) : Request :=
  get_request ("/me/projects/" ++ folder_id
               ++ "?fields=name,metadata.connections.videos.total").

Definition folder_videos_request (folder_id : string) (size page : Z) : Request :=
  get_request ("/me/projects/" ++ folder_id ++ "/videos?per_page="
               ++ Number_toString size ++ "&page=" ++ Number_toString page
               ++ video_fields).

(** [info.metadata?.connections?.videos?.total] *)
Definition nested_total (info : list (string * JsVal)) : JsVal :=
  opt_prop (opt_prop (opt_prop (field "metadata" info) "connections") "videos")
           "total".

(** A network that knows no folder: 404 with an error text, whatever is
    asked. *)
Definition not_found : Network :=
  fun _ _ => Answer (Some 404)
                    (Some (obj [("error", JStr "The requested folder could not be found.")])).

(** *** list_videos and search_videos *)

(** What a listing handler makes of the [data] of a 200 response, with [f]
    the function it maps over the list: the records of the listed
    resources, and no records when the response has no list. *)
Definition listed_as (f : JsVal -> Outcome JsVal) (listed : JsVal)
           (records : list JsVal) : Prop :=
  match listed with
  | JArr items => mapM f items = Returned records
  | JUndefined | JNull => records = []
  | _ => False
  end.

(** The [total] a listing handler reports: the upstream's when it has a
    truthy one, else the number of records on the page. *)
Definition reported_total (body : list (string * JsVal)) (records : list JsVal)
  : JsVal :=
  or_else (field "total" body) (JNum (Z.of_nat (List.length records))).

Definition search_request (query : string) (size page : Z) : Request :=
  get_request ("/me/videos?query=" ++ encodeURIComponent_string query
               ++ "&per_page=" ++ Number_toString size
               ++ "&page=" ++ Number_toString page
               ++ video_fields ++ ",parent_folder").

(** Every character of [s] is unreserved or a percent sign. *)
Fixpoint uri_safe (s : string) : bool :=
  match s with
  | EmptyString => true
  | String c rest => (unreserved c || Ascii.eqb c "%") && uri_safe rest
  end.

(** A network that answers every request with one page of two videos and
    no total. *)
Definition two_videos : Network :=
  fun _ _ =>
    Answer (Some 200)
           (Some (obj [("data",
                        JArr [obj [("uri", JStr "/videos/11");
                                   ("name", JStr "First");
                                   ("duration", JNum 60);
                                   ("created_time", JStr "2025-01-10T08:00:00+00:00");
                                   ("parent_folder", obj [("name", JStr "Marketing")])];
                              obj [("uri", JStr "/videos/12")]])])).

(** *** get_video, continued *)

(** The [tags] [get_video] reports: the names of the upstream tag objects,
    and the empty list when the video has no tag list. *)
Definition reported_tags (tags : JsVal) : JsVal :=
  match tags with
  | JArr items => JArr (map (fun t => prop t "name") items)
  | _ => JArr []
  end.

(** A network that answers every request with a tagged, private video in
    a folder. *)
Definition tagged_video : Network :=
  fun _ _ =>
    Answer (Some 200)
           (Some (obj [("uri", JStr "/videos/999");
                       ("name", JStr "Webinar");
                       ("duration", JNum 360);
                       ("created_time", JStr "2025-01-10T09:30:00+00:00");
                       ("parent_folder", obj [("name", JStr "Marketing")]);
                       ("tags", JArr [obj [("name", JStr "live"); ("canonical", JStr "live")];
                                      obj [("name", JStr "q&a")]]);
                       ("privacy", obj [("view", JStr "unlisted")]);
                       ("link", JStr "https://vimeo.com/999")])).

(** *** get_stats, continued *)

Definition empty_stats : string :=
  JSON_stringify (obj [("total_videos", JNum 0); ("total_folders", JNum 0);
                       ("storage_used_gb", JStr "0.00");
                       ("storage_max_gb", JStr "0.00")])
                 two_spaces.

(** *** Dispatch, continued *)


(** Arguments of the declared types, for any of the tools: numbers for
    [page] and [per_page], strings for the identifiers, the name and the
    search texts, each possibly absent. *)
Definition tool_args_ok (args : list (string * JsVal)) : bool :=
  number_or_absent (field "page" args)
  && number_or_absent (field "per_page" args)
  && string_or_absent (field "folder_id" args)
  && string_or_absent (field "search" args)
  && string_or_absent (field "video_id" args)
  && string_or_absent (field "query" args).

(** A network on which every request fails with the error [e]. *)
Definition always_fails (upstream : Network) (e : JsError) : Prop :=
  forall log req, upstream log req = NetworkError e.

(** The endpoint of [list_videos]: the listing of the folder when a
    non-empty [folder_id] is given and the unscoped listing otherwise,
    followed by the encoded search text when a non-empty [search] is
    given. *)
Definition list_videos_endpoint (args : list (string * JsVal)) : string :=
  let size := Number_toString (per_page_sent (field "per_page" args)) in
  let page := Number_toString (page_sent (field "page" args)) in
  let unscoped := "/me/videos?per_page=" ++ size ++ "&page=" ++ page
                  ++ video_fields ++ ",parent_folder" in
  let base := match field "folder_id" args with
              | JStr f =>
                  if String.eqb f "" then unscoped
                  else "/me/projects/" ++ f ++ "/videos?per_page=" ++ size
                       ++ "&page=" ++ page ++ video_fields
              | _ => unscoped
              end in
  match field "search" args with
  | JStr q =>
      if String.eqb q "" then base
      else base ++ "&query=" ++ encodeURIComponent_string q
  | _ => base
  end.

(* ===================================================================== *)
(** ** Facts about strings *)
(* ===================================================================== *)

Lemma split_on_nonempty sep s : split_on sep s <> [].
Proof.
  destruct s as [|c rest]; simpl; [discriminate|].
  destruct (Ascii.eqb c sep); [discriminate|].
  destruct (split_on sep rest); discriminate.
Qed.

Lemma join_split sep s :
  join_with (String sep EmptyString) (split_on sep s) = s.
Proof.
  induction s as [|c rest IH]; simpl; [reflexivity|].
  destruct (Ascii.eqb_spec c sep) as [->|Hne].
  - pose proof (split_on_nonempty sep rest) as Hn.
    destruct (split_on sep rest) as [|seg segs]; [contradiction|].
    simpl in *. now rewrite IH.
  - pose proof (split_on_nonempty sep rest) as Hn.
    destruct (split_on sep rest) as [|seg segs]; [contradiction|].
    destruct segs as [|seg' segs']; simpl in *; now rewrite <- IH.
Qed.

Lemma split_segments_clean sep s :
  Forall (fun seg => has_char sep seg = false) (split_on sep s).
Proof.
  induction s as [|c rest IH]; simpl.
  - constructor; [reflexivity|constructor].
  - destruct (Ascii.eqb_spec c sep) as [->|Hne].
    + constructor; [reflexivity|assumption].
    + destruct (split_on sep rest) as [|seg segs].
      * constructor; [|constructor]. simpl.
        destruct (Ascii.eqb_spec c sep); [contradiction|reflexivity].
      * inversion IH as [|? ? Hseg Hsegs]; subst.
        constructor; [|assumption]. simpl.
        destruct (Ascii.eqb_spec c sep); [contradiction|assumption].
Qed.

Lemma append_assoc (a b c : string) : (a ++ b) ++ c = a ++ b ++ c.
Proof. induction a as [|x a IH]; simpl; [reflexivity|now rewrite IH]. Qed.

Ltac string_assoc :=
  repeat (progress (cbn [append]; rewrite ?append_assoc)); reflexivity.

Lemma join_last sep (l : list string) :
  l <> [] ->
  join_with sep l = last l EmptyString \/
  exists front, join_with sep l = front ++ sep ++ last l EmptyString.
Proof.
  induction l as [|p rest IH]; intros Hne; [contradiction|].
  destruct rest as [|q rest'].
  - left. reflexivity.
  - right. destruct IH as [IH|[front IH]]; [discriminate| |].
    + exists p. change (join_with sep (p :: q :: rest'))
        with (p ++ sep ++ join_with sep (q :: rest')).
      now rewrite IH.
    + exists (p ++ sep ++ front).
      change (join_with sep (p :: q :: rest'))
        with (p ++ sep ++ join_with sep (q :: rest')).
      rewrite IH. now rewrite !append_assoc.
Qed.

Lemma pop_last (l : list string) :
  l <> [] -> pop l = JStr (last l EmptyString).
Proof.
  intros Hne. unfold pop.
  destruct (exists_last Hne) as [front [x ->]].
  rewrite rev_app_distr. simpl. now rewrite last_last.
Qed.

(** [uri.split("/").pop()] is the trailing path segment of [uri]. *)
Lemma pop_split_trailing (uri : string) :
  exists id, pop (split_on "/" uri) = JStr id /\ trailing_segment uri id.
Proof.
  pose proof (split_on_nonempty "/" uri) as Hne.
  exists (last (split_on "/" uri) EmptyString). split.
  - now apply pop_last.
  - split.
    + pose proof (split_segments_clean "/" uri) as Hall.
      rewrite Forall_forall in Hall. apply Hall.
      destruct (exists_last Hne) as [front [x Hx]]. rewrite Hx.
      rewrite last_last. apply in_or_app. right. now left.
    + pose proof (join_last "/" (split_on "/" uri) Hne) as Hj.
      rewrite join_split in Hj. exact Hj.
Qed.

Lemma split_on_clean sep s :
  has_char sep s = false -> split_on sep s = [s].
Proof.
  induction s as [|c rest IH]; simpl; [reflexivity|].
  destruct (Ascii.eqb c sep); [discriminate|].
  simpl. intros Hrest. now rewrite IH.
Qed.

Lemma split_on_second sep s :
  has_char sep s = true -> exists a b rest, split_on sep s = a :: b :: rest.
Proof.
  induction s as [|c s' IH]; simpl; [discriminate|].
  destruct (Ascii.eqb c sep); simpl.
  - intros _. pose proof (split_on_nonempty sep s') as Hne.
    destruct (split_on sep s') as [|b rest]; [contradiction|].
    now exists "", b, rest.
  - intros Hs. destruct (IH Hs) as [a [b [rest ->]]].
    now exists (String c a), b, rest.
Qed.

Lemma has_char_app sep a b :
  has_char sep (a ++ b) = has_char sep a || has_char sep b.
Proof.
  induction a as [|c a IH]; simpl; [reflexivity|].
  rewrite IH. now rewrite orb_assoc.
Qed.

Lemma last_split_after sep front s :
  last (split_on sep (front ++ String sep s)) "" = last (split_on sep s) "".
Proof.
  induction front as [|c front IH].
  - cbn [append split_on]. rewrite Ascii.eqb_refl.
    pose proof (split_on_nonempty sep s) as Hne.
    destruct (split_on sep s); [contradiction|reflexivity].
  - cbn [append split_on].
    assert (Hhas : has_char sep (front ++ String sep s) = true).
    { rewrite has_char_app. simpl. rewrite Ascii.eqb_refl.
      now rewrite orb_true_r. }
    destruct (split_on_second sep _ Hhas) as [a [b [rest Hsplit]]].
    rewrite Hsplit in *.
    destruct (Ascii.eqb c sep); exact IH.
Qed.

(** The trailing path segment is unique: it is what [split] and [pop]
    compute. *)
Lemma trailing_segment_unique uri id :
  trailing_segment uri id -> id = last (split_on "/" uri) "".
Proof.
  intros [Hclean [->|[front ->]]].
  - now rewrite split_on_clean.
  - cbn [append]. rewrite last_split_after. now rewrite split_on_clean.
Qed.

(** In particular the empty [uri] has the empty identifier. *)
Lemma trailing_segment_empty id : trailing_segment "" id -> id = "".
Proof.
  intros [_ [H|[front H]]]; [now symmetry|].
  destruct front; discriminate.
Qed.

(* ===================================================================== *)
(** ** The extractors *)
(* ===================================================================== *)

Lemma get_object props k : get (JObj props) k = Returned (field k props).
Proof. reflexivity. Qed.

Lemma string_or_absent_cases v :
  string_or_absent v = true ->
  v = JUndefined \/ v = JNull \/ exists s, v = JStr s.
Proof.
  destruct v; simpl; try discriminate; intros _; eauto.
Qed.

Lemma or_else_string s : or_else (JStr s) (JStr "") = JStr s.
Proof.
  unfold or_else. simpl. destruct (String.eqb_spec s ""); simpl; congruence.
Qed.

Lemma defaulted_id_string s :
  exists id, defaulted_id (JStr s) = Returned (JStr id) /\ trailing_segment s id.
Proof.
  unfold defaulted_id. rewrite or_else_string.
  destruct (pop_split_trailing s) as [id [Hpop Htrail]].
  exists id. split; [|exact Htrail].
  simpl. rewrite Hpop. now rewrite or_else_string.
Qed.

Lemma defaulted_id_falsy uri :
  truthy uri = false -> defaulted_id uri = Returned (JStr "").
Proof.
  intros Hf. unfold defaulted_id, or_else. now rewrite Hf.
Qed.

Lemma defaulted_id_identifies uri :
  string_or_absent uri = true ->
  exists id, defaulted_id uri = Returned (JStr id) /\ identifies uri id.
Proof.
  intros Hok.
  destruct (string_or_absent_cases uri Hok) as [->|[->|[s ->]]].
  - exists "". split; reflexivity.
  - exists "". split; reflexivity.
  - apply defaulted_id_string.
Qed.

Lemma defaulted_id_returns uri :
  (exists id, defaulted_id uri = Returned id) <-> string_or_falsy uri = true.
Proof.
  split.
  - intros [id Hid].
    destruct uri as [| |[|]|n| |s|l|p]; try reflexivity; try discriminate;
      [|apply orb_true_r].
    unfold string_or_falsy; simpl.
    unfold defaulted_id, or_else in Hid; simpl in Hid.
    destruct (Z.eqb n 0); [reflexivity|discriminate].
  - unfold string_or_falsy. intros Hok. apply orb_prop in Hok.
    destruct Hok as [Hf|Hs].
    + exists (JStr ""). apply defaulted_id_falsy.
      now destruct (truthy uri).
    + destruct uri; try discriminate.
      destruct (defaulted_id_string s) as [id [Hid _]]. now exists (JStr id).
Qed.

Lemma date_part_returns ct :
  (exists d, date_part ct = Returned d) <-> string_or_absent ct = true.
Proof.
  split.
  - intros [d Hd]. destruct ct; try reflexivity; discriminate.
  - intros Hok.
    destruct (string_or_absent_cases ct Hok) as [->|[->|[s ->]]];
      eexists; reflexivity.
Qed.

Lemma get_total v k : nullish v = false -> exists x, get v k = Returned x.
Proof. destruct v; simpl; try discriminate; intros _; eexists; reflexivity. Qed.

Lemma opt_chain_total v rest :
  (forall o, nullish o = false -> exists x, rest o = Returned x) ->
  exists x, opt_chain v rest = Returned x.
Proof.
  intros Hrest. unfold opt_chain.
  destruct (nullish v) eqn:Hv; [eexists; reflexivity|now apply Hrest].
Qed.

Lemma opt_get_total (v : JsVal) k :
  exists x, opt_chain v (fun p => get p k) = Returned x.
Proof. apply opt_chain_total. intros o Ho. now apply get_total. Qed.

Lemma videos_total_total resource :
  nullish resource = false -> exists t, videos_total resource = Returned t.
Proof.
  intros Hres. unfold videos_total.
  destruct (get_total resource "metadata" Hres) as [m ->].
  cbn [bind Monad_Outcome].
  apply opt_chain_total. intros o Ho.
  destruct (get_total o "connections" Ho) as [c ->].
  apply opt_chain_total. intros o' Ho'.
  destruct (get_total o' "videos" Ho') as [vs ->].
  apply opt_get_total.
Qed.

Lemma extractVideoMinimal_unfold props :
  extractVideoMinimal (JObj props) =
  (id <- defaulted_id (field "uri" props) ;;
   created <- date_part (field "created_time" props) ;;
   folder <- opt_chain (field "parent_folder" props) (fun p => get p "name") ;;
   ret (obj [("id", id);
             ("name", or_else (field "name" props) (JStr "Untitled"));
             ("duration", or_else (field "duration" props) (JNum 0));
             ("created", or_else created (JStr ""));
             ("folder", folder)])).
Proof. unfold extractVideoMinimal. rewrite !get_object. reflexivity. Qed.

Lemma extractFolderMinimal_unfold props :
  extractFolderMinimal (JObj props) =
  (id <- defaulted_id (field "uri" props) ;;
   total <- videos_total (JObj props) ;;
   ret (obj [("id", id);
             ("name", or_else (field "name" props) (JStr "Untitled"));
             ("video_count", or_else total (JNum 0))])).
Proof. unfold extractFolderMinimal. rewrite !get_object. reflexivity. Qed.

Lemma folderVideoRecord_unfold props :
  folderVideoRecord (JObj props) =
  (id <- uri_tail (field "uri" props) ;;
   created <- date_part (field "created_time" props) ;;
   ret (obj [("id", id); ("name", field "name" props);
             ("duration", field "duration" props); ("created", created)])).
Proof.
  unfold folderVideoRecord. rewrite !get_object. reflexivity.
Qed.

Lemma extractVideoMinimal_returns props :
  (exists r, extractVideoMinimal (JObj props) = Returned r)
  <-> video_fields_ok props = true.
Proof.
  rewrite extractVideoMinimal_unfold. unfold video_fields_ok.
  rewrite andb_true_iff, <- defaulted_id_returns, <- date_part_returns.
  cbn [bind Monad_Outcome ret]. split.
  - intros [r Hr].
    destruct (defaulted_id (field "uri" props)) as [id| |]; try discriminate.
    destruct (date_part (field "created_time" props)) as [d| |]; try discriminate.
    split; eexists; reflexivity.
  - intros [[id ->] [d ->]].
    destruct (opt_get_total (field "parent_folder" props) "name") as [f ->].
    eexists; reflexivity.
Qed.

Lemma extractFolderMinimal_returns props :
  (exists r, extractFolderMinimal (JObj props) = Returned r)
  <-> folder_fields_ok props = true.
Proof.
  rewrite extractFolderMinimal_unfold. unfold folder_fields_ok.
  rewrite <- defaulted_id_returns.
  cbn [bind Monad_Outcome ret]. split.
  - intros [r Hr].
    destruct (defaulted_id (field "uri" props)) as [id| |]; try discriminate.
    eexists; reflexivity.
  - intros [id ->].
    destruct (videos_total_total (JObj props) eq_refl) as [t ->].
    eexists; reflexivity.
Qed.

Lemma string_or_absent_falsy v :
  string_or_absent v = true -> string_or_falsy v = true.
Proof.
  destruct v; simpl; try discriminate; try reflexivity.
  intros _. apply orb_true_r.
Qed.

Lemma uri_tail_cases uri :
  string_or_absent uri = true ->
  exists t, uri_tail uri = Returned t /\
    match uri with
    | JStr s => exists id, t = JStr id /\ trailing_segment s id
    | _ => t = JUndefined
    end.
Proof.
  intros Hok.
  destruct (string_or_absent_cases uri Hok) as [->|[->|[s ->]]].
  - exists JUndefined. split; reflexivity.
  - exists JUndefined. split; reflexivity.
  - destruct (pop_split_trailing s) as [id [Hpop Htrail]].
    exists (JStr id). split.
    + change (uri_tail (JStr s)) with (Returned (pop (split_on "/" s))).
      now rewrite Hpop.
    + now exists id.
Qed.

Lemma filtered_keys (f : string * JsVal -> bool) k props :
  In k (map fst (filter f props)) -> In k (map fst props).
Proof.
  rewrite !in_map_iff. intros [kv [Hk Hin]].
  apply filter_In in Hin. exists kv. tauto.
Qed.

Lemma filtered_keys_tail (f : string * JsVal -> bool) k kv props :
  f kv = false ->
  In k (map fst (filter f (kv :: props))) -> In k (map fst props).
Proof. intros Hf. simpl. rewrite Hf. apply filtered_keys. Qed.

(** C1 (amended).  For a resource object whose [uri] and [created_time]
    are absent, [null] or strings: both extractors return a record whose
    [id] is the trailing path segment of [uri], and the empty string when
    [uri] is absent or empty; the record built inline by
    [handleGetFolderVideos] has the trailing path segment as [id] when
    [uri] is a string (the empty string for an empty one) and has no [id]
    ([undefined], dropped by [JSON.stringify]) when [uri] is absent. *)
Theorem identifier_is_uri_tail (props : list (string * JsVal)) :
  resource_fields_ok props = true ->
  (exists r id, extractVideoMinimal (JObj props) = Returned r
                /\ get r "id" = Returned (JStr id)
                /\ identifies (field "uri" props) id)
  /\ (exists r id, extractFolderMinimal (JObj props) = Returned r
                   /\ get r "id" = Returned (JStr id)
                   /\ identifies (field "uri" props) id)
  /\ (exists r, folderVideoRecord (JObj props) = Returned r
                /\ match field "uri" props with
                   | JStr s => exists id, get r "id" = Returned (JStr id)
                                          /\ trailing_segment s id
                   | _ => get r "id" = Returned JUndefined
                          /\ ~ In "id" (serialized_keys r)
                   end).
Proof.
  unfold resource_fields_ok. intros Hok.
  apply andb_prop in Hok. destruct Hok as [Huri Hct].
  destruct (defaulted_id_identifies _ Huri) as [id [Hid Hdesc]].
  destruct (proj2 (date_part_returns _) Hct) as [d Hd].
  split; [|split].
  - rewrite extractVideoMinimal_unfold, Hid, Hd.
    destruct (opt_get_total (field "parent_folder" props) "name") as [f Hf].
    cbn [bind Monad_Outcome ret]. rewrite Hf.
    eexists; exists id. split; [reflexivity|split; [reflexivity|assumption]].
  - rewrite extractFolderMinimal_unfold, Hid.
    destruct (videos_total_total (JObj props) eq_refl) as [t Ht].
    cbn [bind Monad_Outcome ret]. rewrite Ht.
    eexists; exists id. split; [reflexivity|split; [reflexivity|assumption]].
  - rewrite folderVideoRecord_unfold, Hd.
    destruct (uri_tail_cases _ Huri) as [t [Ht Hcase]]. rewrite Ht.
    cbn [bind Monad_Outcome ret].
    eexists. split; [reflexivity|].
    destruct (field "uri" props) as [| | | | |s| |];
      try (subst t; split; [reflexivity|];
           unfold serialized_keys, obj;
           intros Hin; apply filtered_keys_tail in Hin; [|reflexivity];
           simpl in Hin; intuition discriminate).
    destruct Hcase as [id' [-> Htrail]]. exists id'. split; [reflexivity|assumption].
Qed.

Lemma identifier_is_uri_tail_witness :
  resource_fields_ok sample_video = true
  /\ exists r id, extractVideoMinimal (JObj sample_video) = Returned r
                  /\ get r "id" = Returned (JStr id)
                  /\ identifies (field "uri" sample_video) id.
Proof.
  split; [reflexivity|].
  exact (proj1 (identifier_is_uri_tail sample_video eq_refl)).
Defined.

(** C1 as stated fails for the inline construction: without a [uri] the
    record has no identifier at all, not the empty string. *)
Lemma inline_record_without_uri_has_no_id :
  ~ (forall props r,
        lookup "uri" props = None ->
        folderVideoRecord (JObj props) = Returned r ->
        get r "id" = Returned (JStr "")).
Proof.
  intros H.
  specialize (H [("name", JStr "clip")]
                (obj [("id", JUndefined); ("name", JStr "clip");
                      ("duration", JUndefined); ("created", JUndefined)])
                eq_refl eq_refl).
  discriminate H.
Qed.

(** C6.  On a resource object whose [uri] and [created_time] are absent,
    [null] or strings, whatever else it holds or lacks, both extractors
    return: no field that is missing, at any level, makes them throw.
    With none of the fields present the records are the defaults: name
    "Untitled", duration 0, video_count 0, empty id and date, and no
    [folder] in the serialized record. *)
Theorem extractors_tolerate_missing_fields (props : list (string * JsVal)) :
  resource_fields_ok props = true ->
  (exists r, extractVideoMinimal (JObj props) = Returned r)
  /\ (exists r, extractFolderMinimal (JObj props) = Returned r)
  /\ (absent ["uri"; "name"; "duration"; "created_time"; "parent_folder"] props ->
      extractVideoMinimal (JObj props) = Returned default_video)
  /\ (absent ["uri"; "name"; "metadata"] props ->
      extractFolderMinimal (JObj props) = Returned default_folder)
  /\ serialized_keys default_video = ["id"; "name"; "duration"; "created"]
  /\ serialized_keys default_folder = ["id"; "name"; "video_count"].
Proof.
  unfold resource_fields_ok. intros Hok.
  apply andb_prop in Hok. destruct Hok as [Huri Hct].
  apply string_or_absent_falsy in Huri.
  split.
  { apply extractVideoMinimal_returns. unfold video_fields_ok.
    now rewrite Huri, Hct. }
  split; [now apply extractFolderMinimal_returns|].
  split; [|split; [|split; reflexivity]].
  - intros Habs. rewrite extractVideoMinimal_unfold. unfold field.
    rewrite !Habs by (simpl; tauto). reflexivity.
  - intros Habs. rewrite extractFolderMinimal_unfold.
    unfold videos_total. rewrite get_object. unfold field.
    rewrite !Habs by (simpl; tauto). reflexivity.
Qed.

Lemma extractors_tolerate_missing_fields_witness :
  resource_fields_ok sparse_folder = true
  /\ (exists r, extractVideoMinimal (JObj sparse_folder) = Returned r)
  /\ (exists r, extractFolderMinimal (JObj sparse_folder) = Returned r).
Proof.
  split; [reflexivity|].
  pose proof (extractors_tolerate_missing_fields sparse_folder eq_refl) as H.
  split; [exact (proj1 H)|exact (proj1 (proj2 H))].
Defined.

(** A folder that lacks its name and the inner levels of its metadata. *)
Example extract_sparse_folder :
  extractFolderMinimal (JObj sparse_folder)
  = Returned (obj [("id", JStr "77"); ("name", JStr "Untitled");
                   ("video_count", JNum 0)]).
Proof. reflexivity. Qed.

(** The assumption on the types is needed: the extractors call [split] on
    whatever a truthy [uri] holds, and a number has no such method. *)
Remark extractor_throws_on_numeric_uri :
  extractVideoMinimal (obj [("uri", JNum 123)]) = Thrown (not_a_function "split").
Proof. reflexivity. Qed.

(* ===================================================================== *)
(** ** Running tasks *)
(* ===================================================================== *)

Arguments JSON_stringify : simpl never.
Arguments Number_toString : simpl never.

Lemma run_lift {A B} (c : Outcome A) (k : A -> Task B) log :
  bind (lift c) k log
  = match c with
    | Returned a => k a log
    | Thrown e => (Thrown e, log)
    | Unfinished => (Unfinished, log)
    end.
Proof. destruct c; reflexivity. Qed.

Lemma run_lift_last {A} (c : Outcome A) (log : list Request) :
  lift c log = (c, log).
Proof. reflexivity. Qed.

Lemma run_request {B} (upstream : Network) endpoint method body
      (k : VimeoResponse -> Task B) log :
  bind (vimeoRequest upstream endpoint method body) k log
  = match upstream log (request_of endpoint method body) with
    | Answer statusCode parsed =>
        k (response_of statusCode parsed)
          (log ++ [request_of endpoint method body])%list
    | NetworkError e =>
        (Thrown e, (log ++ [request_of endpoint method body])%list)
    end.
Proof.
  unfold vimeoRequest. cbn [bind Monad_Task].
  destruct (upstream log (request_of endpoint method body)); reflexivity.
Qed.

(* ===================================================================== *)
(** ** update_video *)
(* ===================================================================== *)

(** The text written to the request is the JSON text of the body. *)
Lemma update_request_written sv body :
  written (update_request sv (obj body))
  = Some (JSON_stringify (obj body) compact).
Proof. reflexivity. Qed.

Lemma updateVideoBody_object args :
  updateVideoBody (JObj args) = Returned (obj (kept_fields args)).
Proof.
  unfold updateVideoBody, assign_if_truthy, kept_fields.
  rewrite !get_object. cbn [bind Monad_Outcome ret flat_map].
  destruct (truthy (field "name" args)),
           (truthy (field "description" args)),
           (truthy (field "tags" args)); reflexivity.
Qed.

(** What one [update_video] call does: one PATCH request whose body is the
    kept fields, then a result that reports whether the status was 200. *)
Lemma handleUpdateVideo_run (upstream : Network) args sv log :
  ToString (field "video_id" args) = Returned sv ->
  handleUpdateVideo upstream (JObj args) log =
  let req := update_request sv (obj (kept_fields args)) in
  match upstream log req with
  | Answer statusCode parsed =>
      (Returned
         (JSON_stringify
            (obj [("success",
                   JBool (Z.eqb (match statusCode with Some c => c | None => 0 end) 200));
                  ("video_id", field "video_id" args)])
            compact),
       (log ++ [req])%list)
  | NetworkError e => (Thrown e, (log ++ [req])%list)
  end.
Proof.
  intros Hsv. unfold handleUpdateVideo.
  rewrite run_lift, updateVideoBody_object.
  rewrite run_lift, get_object. cbn [bind Monad_Outcome]. rewrite Hsv.
  rewrite run_request.
  change (request_of ("/videos/" ++ sv) "PATCH" (obj (kept_fields args)))
    with (update_request sv (obj (kept_fields args))).
  cbv zeta.
  destruct (upstream log _) as [statusCode parsed|e]; reflexivity.
Qed.

Lemma lookup_kept_fields args k :
  lookup k (kept_fields args)
  = if is_update_field k && truthy (field k args)
    then Some (field k args) else None.
Proof.
  unfold kept_fields, is_update_field. cbn [flat_map existsb].
  destruct (truthy (field "name" args)) eqn:Hn,
           (truthy (field "description" args)) eqn:Hd,
           (truthy (field "tags" args)) eqn:Ht;
    simpl;
    repeat match goal with
           | |- context [String.eqb k ?s] =>
               destruct (String.eqb_spec k s); [subst k|]
           end;
    simpl; rewrite ?Hn, ?Hd, ?Ht; reflexivity.
Qed.

Lemma handleUpdateVideo_sends (upstream : Network) args sv log :
  ToString (field "video_id" args) = Returned sv ->
  exists outcome,
    handleUpdateVideo upstream (JObj args) log
    = (outcome, (log ++ [update_request sv (obj (kept_fields args))])%list).
Proof.
  intros Hsv. rewrite (handleUpdateVideo_run upstream args sv log Hsv).
  cbv zeta. destruct (upstream log _); eexists; reflexivity.
Qed.

(** C2 (amended).  An [update_video] call sends one PATCH request whose
    body holds exactly the fields among name, description and tags whose
    value in the arguments is truthy, each with the caller's value and in
    that order; a field that is absent, or supplied with a falsy value such
    as the empty string, is not in the body (and nothing is sent as null).
    A call with only a video id and a non-empty name sends a body with the
    name as its only key. *)
Theorem update_body_keeps_truthy_fields
        (upstream : Network) (args : list (string * JsVal))
        (sv : string) (log : list Request) :
  ToString (field "video_id" args) = Returned sv ->
  exists body outcome,
    handleUpdateVideo upstream (JObj args) log
    = (outcome, (log ++ [update_request sv (obj body)])%list)
    /\ updateVideoBody (JObj args) = Returned (obj body)
    /\ (forall k, lookup k body
                  = if is_update_field k && truthy (field k args)
                    then Some (field k args) else None)
    /\ (truthy (field "name" args) = true ->
        truthy (field "description" args) = false ->
        truthy (field "tags" args) = false ->
        body = [("name", field "name" args)]).
Proof.
  intros Hsv. exists (kept_fields args).
  destruct (handleUpdateVideo_sends upstream args sv log Hsv) as [outcome Hrun].
  exists outcome. split; [exact Hrun|].
  split; [apply updateVideoBody_object|].
  split; [apply lookup_kept_fields|].
  intros Hn Hd Ht. unfold kept_fields. cbn [flat_map].
  now rewrite Hn, Hd, Ht.
Qed.

Lemma update_body_keeps_truthy_fields_witness :
  ToString (field "video_id" [("video_id", JStr "42"); ("name", JStr "X")])
  = Returned "42"
  /\ exists body outcome,
       handleUpdateVideo always_ok
         (JObj [("video_id", JStr "42"); ("name", JStr "X")]) []
       = (outcome, ([] ++ [update_request "42" (obj body)])%list)
       /\ body = [("name", JStr "X")].
Proof.
  split; [reflexivity|].
  destruct (update_body_keeps_truthy_fields always_ok
              [("video_id", JStr "42"); ("name", JStr "X")] "42" [] eq_refl)
    as [body [outcome [Hrun [_ [_ Honly]]]]].
  exists body, outcome. split; [exact Hrun|].
  apply Honly; reflexivity.
Defined.

(** C2 as stated fails: a name supplied as the empty string is a supplied
    field, and the body does not contain it. *)
Lemma supplied_empty_name_not_sent :
  ~ (forall args body,
        updateVideoBody (JObj args) = Returned (obj body) ->
        forall k, is_update_field k = true ->
                  has_key k body = has_key k args).
Proof.
  intros H.
  specialize (H [("video_id", JStr "42"); ("name", JStr "")] [] eq_refl
                "name" eq_refl).
  discriminate H.
Qed.

(** C10.  When the caller supplies name or description as the empty
    string, the PATCH body sent upstream has no such key; a supplied empty
    tags array is in the body. *)
Theorem update_drops_empty_strings_keeps_empty_tags
        (upstream : Network) (args : list (string * JsVal))
        (sv : string) (log : list Request) :
  ToString (field "video_id" args) = Returned sv ->
  exists body outcome,
    handleUpdateVideo upstream (JObj args) log
    = (outcome, (log ++ [update_request sv (obj body)])%list)
    /\ (lookup "name" args = Some (JStr "") -> lookup "name" body = None)
    /\ (lookup "description" args = Some (JStr "") ->
        lookup "description" body = None)
    /\ (lookup "tags" args = Some (JArr []) ->
        lookup "tags" body = Some (JArr [])).
Proof.
  intros Hsv. exists (kept_fields args).
  destruct (handleUpdateVideo_sends upstream args sv log Hsv) as [outcome Hrun].
  exists outcome. split; [exact Hrun|].
  repeat split; intros Hk; rewrite lookup_kept_fields; unfold field;
    rewrite Hk; reflexivity.
Qed.

Lemma update_drops_empty_strings_keeps_empty_tags_witness :
  let args := [("video_id", JStr "42"); ("name", JStr "");
               ("description", JStr ""); ("tags", JArr [])] in
  ToString (field "video_id" args) = Returned "42"
  /\ exists body outcome,
       handleUpdateVideo always_ok (JObj args) []
       = (outcome, ([] ++ [update_request "42" (obj body)])%list)
       /\ lookup "name" body = None
       /\ lookup "description" body = None
       /\ lookup "tags" body = Some (JArr []).
Proof.
  intros args. split; [reflexivity|].
  destruct (update_drops_empty_strings_keeps_empty_tags always_ok args "42" []
              eq_refl) as [body [outcome [Hrun [Hname [Hdesc Htags]]]]].
  exists body, outcome.
  split; [exact Hrun|].
  split; [exact (Hname eq_refl)|].
  split; [exact (Hdesc eq_refl)|exact (Htags eq_refl)].
Defined.

(* ===================================================================== *)
(** ** create_folder *)
(* ===================================================================== *)

(** C3 (amended).  For a create_folder call answered by the upstream with
    status [s] and a JSON object (or no body): on 201 the result is
    {success: true, id, name} with the input name and, for id, the trailing
    path segment of the response's self URI when it is a string (nothing
    when the response has none); on 400 with an error text that contains
    "already exists" the result is exactly
    {success: false, error: "Folder already exists"}; on any other status
    the result is {success: false, error} with the raw upstream error when
    the response has a non-empty one, and "Failed to create folder"
    otherwise. *)
Theorem create_folder_results
        (upstream : Network) (args : list (string * JsVal))
        (log : list Request) (statusCode : option Z) (parsed : option JsVal)
        (body : list (string * JsVal)) :
  let name := field "name" args in
  let res := response_of statusCode parsed in
  let run := handleCreateFolder upstream (JObj args) log in
  let sent := (log ++ [create_request name])%list in
  upstream log (create_request name) = Answer statusCode parsed ->
  data res = JObj body ->
  (status res = 201 ->
   string_or_absent (field "uri" body) = true ->
   exists id,
     run = (Returned (JSON_stringify
                        (obj [("success", JBool true); ("id", id); ("name", name)])
                        compact), sent)
     /\ reported_id (field "uri" body) id)
  /\ (status res = 400 ->
      forall e, field "error" body = JStr e ->
                contains "already exists" e = true ->
                run = (Returned already_exists_result, sent))
  /\ (status res <> 201 ->
      (status res = 400 ->
       string_or_absent (field "error" body) = true
       /\ forall e, field "error" body = JStr e ->
                    contains "already exists" e = false) ->
      run = (Returned (create_failed_result
                         (or_else (field "error" body)
                                  (JStr "Failed to create folder"))), sent)
      /\ (forall e, field "error" body = JStr e -> e <> "" ->
                    run = (Returned (create_failed_result (JStr e)), sent))).
Proof.
  intros name res run sent Hreply Hbody.
  assert (Hrun : run =
    (if is_status res 201 then
       lift (res_uri <- get (data res) "uri" ;;
             id <- uri_tail res_uri ;;
             name <- get (JObj args) "name" ;;
             ret (JSON_stringify (obj [("success", JBool true); ("id", id);
                                       ("name", name)]) compact))
     else
       exists_already <- lift (
         if is_status res 400 then
           res_error <- get (data res) "error" ;;
           opt_chain res_error (fun e => call_includes e "already exists")
         else ret (JBool false)) ;;
       if truthy exists_already then ret already_exists_result
       else
         lift (res_error <- get (data res) "error" ;;
               ret (create_failed_result
                      (or_else res_error (JStr "Failed to create folder")))))
      sent).
  { unfold run, handleCreateFolder.
    rewrite run_lift, get_object, run_request.
    fold name. fold (create_request name). rewrite Hreply. reflexivity. }
  clearbody run. subst run. rewrite Hbody. rewrite !get_object.
  unfold is_status.
  split; [|split].
  - intros Hs Huri. rewrite Hs. cbn [Z.eqb Pos.eqb].
    destruct (uri_tail_cases _ Huri) as [t [Ht Hcase]].
    exists t. rewrite run_lift_last. cbn [bind Monad_Outcome ret]. rewrite Ht.
    split; [reflexivity|]. unfold reported_id.
    destruct (field "uri" body); assumption.
  - intros Hs e He Hex. rewrite Hs. cbn [Z.eqb Pos.eqb].
    rewrite run_lift. cbn [bind Monad_Outcome ret]. rewrite He.
    cbn [opt_chain nullish call_includes ret Monad_Outcome]. rewrite Hex.
    reflexivity.
  - intros Hs Hbad.
    assert (Hfail :
      (if Z.eqb (status res) 201 then
         lift (res_uri <- Returned (field "uri" body) ;;
               id <- uri_tail res_uri ;;
               name <- Returned (field "name" args) ;;
               ret (JSON_stringify (obj [("success", JBool true); ("id", id);
                                         ("name", name)]) compact))
       else
         exists_already <- lift (
           if Z.eqb (status res) 400 then
             res_error <- Returned (field "error" body) ;;
             opt_chain res_error (fun e => call_includes e "already exists")
           else ret (JBool false)) ;;
         if truthy exists_already then ret already_exists_result
         else
           lift (res_error <- Returned (field "error" body) ;;
                 ret (create_failed_result
                        (or_else res_error (JStr "Failed to create folder")))))
        sent
      = (Returned (create_failed_result
                     (or_else (field "error" body)
                              (JStr "Failed to create folder"))), sent)).
    { destruct (Z.eqb_spec (status res) 201) as [|_]; [contradiction|].
      rewrite run_lift.
      destruct (Z.eqb_spec (status res) 400) as [H400|_]; [|reflexivity].
      destruct (Hbad H400) as [Hok Hnot].
      cbn [bind Monad_Outcome ret].
      destruct (string_or_absent_cases _ Hok) as [->|[->|[e He]]];
        try reflexivity.
      rewrite He. cbn [opt_chain nullish call_includes ret Monad_Outcome].
      rewrite (Hnot e He). reflexivity. }
    split; [exact Hfail|].
    intros e He Hne. rewrite Hfail, He.
    unfold or_else. cbn [truthy].
    destruct (String.eqb_spec e ""); [contradiction|reflexivity].
Qed.

Lemma create_folder_results_witness :
  let args := [("name", JStr "Demos")] in
  let body := [("uri", JStr "/users/1/projects/789"); ("name", JStr "Demos")] in
  created_789 [] (create_request (field "name" args))
  = Answer (Some 201) (Some (obj body))
  /\ data (response_of (Some 201) (Some (obj body))) = JObj body
  /\ status (response_of (Some 201) (Some (obj body))) = 201
  /\ string_or_absent (field "uri" body) = true
  /\ exists id,
       handleCreateFolder created_789 (JObj args) []
       = (Returned (JSON_stringify
                      (obj [("success", JBool true); ("id", id);
                            ("name", field "name" args)]) compact),
          ([] ++ [create_request (field "name" args)])%list)
       /\ reported_id (field "uri" body) id.
Proof.
  intros args body.
  split; [reflexivity|]. split; [reflexivity|]. split; [reflexivity|].
  split; [reflexivity|].
  exact (proj1 (create_folder_results created_789 args [] (Some 201)
                  (Some (obj body)) body eq_refl eq_refl)
               eq_refl eq_refl).
Defined.

(** The scenario of the specification: a 201 whose self URI ends in
    [/projects/789]. *)
Example create_folder_789 :
  handleCreateFolder created_789 (obj [("name", JStr "Demos")]) []
  = (Returned (JSON_stringify
                 (obj [("success", JBool true); ("id", JStr "789");
                       ("name", JStr "Demos")]) compact),
     [create_request (JStr "Demos")]).
Proof. reflexivity. Qed.

(** A 400 that says the folder exists, and the exact text returned. *)
Example create_folder_exists :
  handleCreateFolder folder_exists (obj [("name", JStr "Demos")]) []
  = (Returned already_exists_result, [create_request (JStr "Demos")])
  /\ already_exists_result
     = "{" ++ dquote ++ "success" ++ dquote ++ ":false,"
       ++ dquote ++ "error" ++ dquote ++ ":"
       ++ dquote ++ "Folder already exists" ++ dquote ++ "}".
Proof. split; reflexivity. Qed.

(** C3 as stated fails in its last clause: a failure response without an
    error text yields the fixed text "Failed to create folder", which is
    not an upstream message. *)
Lemma create_folder_fallback_message :
  handleCreateFolder always_500 (obj [("name", JStr "Demos")]) []
  = (Returned (create_failed_result (JStr "Failed to create folder")),
     [create_request (JStr "Demos")])
  /\ ~ (forall (upstream : Network) args log statusCode parsed body,
           upstream log (create_request (field "name" args))
           = Answer statusCode parsed ->
           data (response_of statusCode parsed) = JObj body ->
           status (response_of statusCode parsed) <> 201 ->
           status (response_of statusCode parsed) <> 400 ->
           handleCreateFolder upstream (JObj args) log
           = (Returned (create_failed_result (field "error" body)),
              (log ++ [create_request (field "name" args)])%list)).
Proof.
  split; [reflexivity|].
  intros H.
  specialize (H always_500 [("name", JStr "Demos")] [] (Some 500) None []
                eq_refl eq_refl).
  assert (Hrun : handleCreateFolder always_500 (JObj [("name", JStr "Demos")]) []
                 = (Returned (create_failed_result (JStr "Failed to create folder")),
                    [create_request (JStr "Demos")])) by reflexivity.
  rewrite Hrun in H.
  assert (Hne : create_failed_result (JStr "Failed to create folder")
                <> create_failed_result (field "error" []))
    by (vm_compute; discriminate).
  apply Hne.
  assert (H' := H ltac:(cbn; lia) ltac:(cbn; lia)).
  now injection H'.
Qed.

(* ===================================================================== *)
(** ** get_video *)
(* ===================================================================== *)

Lemma take_first_chars n s : first_chars n s (take n s).
Proof.
  unfold first_chars. revert s.
  induction n as [|n IH]; intros s.
  - split; [exists s; reflexivity|reflexivity].
  - destruct s as [|c rest]; [split; [exists ""; reflexivity|reflexivity]|].
    destruct (IH rest) as [[tl Htl] Hlen]. split.
    + exists tl. simpl. now rewrite <- Htl.
    + simpl. now rewrite Hlen.
Qed.

(** The first [n] characters are unique: they are what [substring(0, n)]
    computes. *)
Lemma first_chars_unique n s d : first_chars n s d -> d = take n s.
Proof.
  intros [[rest ->] Hlen]. revert n Hlen.
  induction d as [|c d IH]; intros n Hlen.
  - destruct n as [|n]; [reflexivity|]. simpl in *.
    destruct rest; [reflexivity|discriminate].
  - destruct n as [|n]; [discriminate|].
    simpl in *. f_equal. apply IH. now injection Hlen.
Qed.

Lemma description_reported v :
  string_or_absent v = true ->
  exists d,
    (x <- opt_chain v (fun s => call_substring0 s 500) ;;
     ret (or_else x (JStr ""))) = Returned (JStr d)
    /\ reported_description v d.
Proof.
  intros Hok.
  destruct (string_or_absent_cases v Hok) as [->|[->|[s ->]]].
  - exists "". split; reflexivity.
  - exists "". split; reflexivity.
  - exists (take 500 s). split; [|apply take_first_chars].
    cbn [opt_chain nullish call_substring0 bind ret Monad_Outcome].
    now rewrite or_else_string.
Qed.

Lemma mapM_get_total items k :
  forallb (fun t => negb (nullish t)) items = true ->
  exists ys, mapM (fun t => get t k) items = Returned ys.
Proof.
  induction items as [|x rest IH]; intros Hall; [eexists; reflexivity|].
  simpl in Hall. apply andb_prop in Hall. destruct Hall as [Hx Hrest].
  destruct (IH Hrest) as [ys Hys].
  destruct (get_total x k) as [y Hy]; [now destruct (nullish x)|].
  exists (y :: ys). cbn [mapM bind Monad_Outcome ret]. now rewrite Hy, Hys.
Qed.

Lemma tag_names_total tags :
  tags_ok tags = true ->
  exists names,
    opt_chain tags (fun ts => call_map ts (fun t => get t "name"))
    = Returned names.
Proof.
  destruct tags; try discriminate; intros Hok; try (eexists; reflexivity).
  destruct (mapM_get_total items "name" Hok) as [ys Hys].
  exists (JArr ys). cbn [opt_chain nullish call_map bind Monad_Outcome ret].
  now rewrite Hys.
Qed.

(** C7.  On status 200 with a video object, [get_video] returns a record
    whose description is the first 500 characters of the upstream
    description (exactly 500 of them when it is longer), and the empty
    string when there is none; on any other status it returns
    {error: "Video not found", status}. *)
Theorem get_video_truncates_description
        (upstream : Network) (args : list (string * JsVal)) (sv : string)
        (log : list Request) (statusCode : option Z) (parsed : option JsVal) :
  let res := response_of statusCode parsed in
  let run := handleGetVideo upstream (JObj args) log in
  let sent := (log ++ [get_request (video_endpoint sv)])%list in
  ToString (field "video_id" args) = Returned sv ->
  upstream log (get_request (video_endpoint sv)) = Answer statusCode parsed ->
  (status res <> 200 ->
   run = (Returned (JSON_stringify
                      (obj [("error", JStr "Video not found");
                            ("status", JNum (status res))]) compact), sent))
  /\ (forall body,
        status res = 200 ->
        data res = JObj body ->
        video_body_ok body = true ->
        exists d created folder tags privacy,
          run = (Returned
                   (JSON_stringify
                      (obj [("id", field "video_id" args);
                            ("name", field "name" body);
                            ("description", JStr d);
                            ("duration", field "duration" body);
                            ("created", created);
                            ("folder", folder);
                            ("tags", tags);
                            ("privacy", privacy);
                            ("link", field "link" body)])
                      two_spaces), sent)
          /\ reported_description (field "description" body) d).
Proof.
  intros res run sent Hsv Hreply.
  assert (Hrun : run =
    (if negb (is_status res 200) then
       ret (JSON_stringify (obj [("error", JStr "Video not found");
                                 ("status", JNum (status res))]) compact)
     else
       let v := data res in
       lift (
         id <- get (JObj args) "video_id" ;;
         name <- get v "name" ;;
         v_description <- get v "description" ;;
         description <- opt_chain v_description (fun d => call_substring0 d 500) ;;
         duration <- get v "duration" ;;
         created_time <- get v "created_time" ;;
         created <- date_part created_time ;;
         parent_folder <- get v "parent_folder" ;;
         folder <- opt_chain parent_folder (fun p => get p "name") ;;
         v_tags <- get v "tags" ;;
         tags <- opt_chain v_tags (fun ts => call_map ts (fun t => get t "name")) ;;
         v_privacy <- get v "privacy" ;;
         privacy <- opt_chain v_privacy (fun p => get p "view") ;;
         link <- get v "link" ;;
         ret (JSON_stringify
                (obj [("id", id); ("name", name);
                      ("description", or_else description (JStr ""));
                      ("duration", duration); ("created", created);
                      ("folder", folder); ("tags", or_else tags (JArr []));
                      ("privacy", privacy); ("link", link)])
                two_spaces))) sent).
  { unfold run, handleGetVideo.
    rewrite run_lift, get_object.
    rewrite run_lift, Hsv.
    rewrite run_request. fold (video_endpoint sv).
    fold (get_request (video_endpoint sv)). rewrite Hreply. reflexivity. }
  clearbody run. subst run. unfold is_status. split.
  - intros Hs. destruct (Z.eqb_spec (status res) 200); [contradiction|].
    reflexivity.
  - intros body Hs Hbody Hok. rewrite Hs, Hbody. cbn [Z.eqb Pos.eqb negb].
    cbv zeta. rewrite !get_object, run_lift_last.
    unfold video_body_ok in Hok.
    apply andb_prop in Hok. destruct Hok as [Hok Htags].
    apply andb_prop in Hok. destruct Hok as [Hdesc Hct].
    destruct (description_reported _ Hdesc) as [d [Hd Hrep]].
    destruct (proj2 (date_part_returns _) Hct) as [created Hcreated].
    destruct (opt_get_total (field "parent_folder" body) "name") as [folder Hfolder].
    destruct (tag_names_total _ Htags) as [names Hnames].
    destruct (opt_get_total (field "privacy" body) "view") as [privacy Hprivacy].
    exists d, created, folder, (or_else names (JArr [])), privacy.
    split; [|exact Hrep].
    cbn [bind Monad_Outcome ret] in *.
    destruct (opt_chain (field "description" body)
                        (fun s => call_substring0 s 500)) as [x| |];
      try discriminate.
    injection Hd as Hd.
    now rewrite Hcreated, Hfolder, Hnames, Hprivacy, Hd.
Qed.

Lemma get_video_truncates_description_witness :
  let args := [("video_id", JStr "42")] in
  let body := [("uri", JStr "/videos/42"); ("name", JStr "Intro");
               ("description", JStr (replicate 600 "a"));
               ("tags", JArr [obj [("name", JStr "demo")]])] in
  ToString (field "video_id" args) = Returned "42"
  /\ long_description [] (get_request (video_endpoint "42"))
     = Answer (Some 200) (Some (obj body))
  /\ video_body_ok body = true
  /\ exists d created folder tags privacy,
       handleGetVideo long_description (JObj args) []
       = (Returned
            (JSON_stringify
               (obj [("id", field "video_id" args);
                     ("name", field "name" body);
                     ("description", JStr d);
                     ("duration", field "duration" body);
                     ("created", created);
                     ("folder", folder);
                     ("tags", tags);
                     ("privacy", privacy);
                     ("link", field "link" body)])
               two_spaces),
          ([] ++ [get_request (video_endpoint "42")])%list)
       /\ reported_description (field "description" body) d.
Proof.
  intros args body.
  split; [reflexivity|]. split; [reflexivity|]. split; [reflexivity|].
  exact (proj2 (get_video_truncates_description long_description args "42" []
                  (Some 200) (Some (obj body)) eq_refl eq_refl)
               body eq_refl eq_refl eq_refl).
Defined.

(** A description of 600 characters comes back as its first 500. *)
Example get_video_600_characters :
  handleGetVideo long_description (obj [("video_id", JStr "42")]) []
  = (Returned
       (JSON_stringify
          (obj [("id", JStr "42"); ("name", JStr "Intro");
                ("description", JStr (replicate 500 "a"));
                ("tags", JArr [JStr "demo"])])
          two_spaces),
     [get_request (video_endpoint "42")]).
Proof. vm_compute. reflexivity. Qed.

(* ===================================================================== *)
(** ** list_videos *)
(* ===================================================================== *)

Section ListVideos.

Variable StringToNumber : string -> option Z.
Variable upstream : Network.

Lemma perPage_of_number args :
  number_or_absent (field "per_page" args) = true ->
  perPage_of StringToNumber (JObj args) 50
  = Returned (JNum (per_page_sent (field "per_page" args))).
Proof.
  intros Hok. unfold perPage_of. rewrite get_object.
  cbn [bind Monad_Outcome].
  destruct (field "per_page" args) as [| | |n| | | |]; try discriminate;
    try reflexivity.
  unfold per_page_sent, or_else. cbn [truthy].
  destruct (Z.eqb n 0); reflexivity.
Qed.

Lemma page_of_number args :
  number_or_absent (field "page" args) = true ->
  exists p, page_of (JObj args) = Returned (JNum p).
Proof.
  intros Hok. unfold page_of. rewrite get_object.
  cbn [bind Monad_Outcome ret].
  destruct (field "page" args) as [| | |n| | | |]; try discriminate;
    try (exists 1; reflexivity).
  unfold or_else. cbn [truthy].
  destruct (Z.eqb n 0); eexists; reflexivity.
Qed.

Lemma string_or_absent_truthy v :
  string_or_absent v = true ->
  truthy v = false \/ exists s, v = JStr s /\ truthy v = true.
Proof.
  intros Hok.
  destruct (string_or_absent_cases v Hok) as [->|[->|[s ->]]];
    [left; reflexivity|left; reflexivity|].
  destruct (truthy (JStr s)) eqn:Ht; [right; now exists s|now left].
Qed.

(** C8 (amended).  For a list_videos call with arguments of the declared
    types, the request sent upstream carries, as its first query
    parameter, [per_page=] the caller's per_page capped at 100 when it was
    supplied and is not 0, and 50 when it was not supplied or is 0. *)
Theorem list_videos_caps_per_page (args : list (string * JsVal))
        (log : list Request) :
  list_videos_args_ok args = true ->
  exists outcome front rest,
    handleListVideos StringToNumber upstream (JObj args) log
    = (outcome,
       (log ++ [get_request
                  (front ++ "per_page="
                   ++ Number_toString (per_page_sent (field "per_page" args))
                   ++ "&page=" ++ rest)])%list)
    /\ (front = "/me/videos?"
        \/ exists f, field "folder_id" args = JStr f
                     /\ front = "/me/projects/" ++ f ++ "/videos?").
Proof.
  unfold list_videos_args_ok. intros Hok.
  apply andb_prop in Hok. destruct Hok as [Hok Hsearch].
  apply andb_prop in Hok. destruct Hok as [Hok Hfolder].
  apply andb_prop in Hok. destruct Hok as [Hpage Hper].
  destruct (page_of_number args Hpage) as [p Hp].
  unfold handleListVideos.
  rewrite run_lift, Hp. rewrite run_lift, (perPage_of_number args Hper).
  rewrite run_lift, !get_object.
  cbn [ToString bind Monad_Outcome].
  set (pp := Number_toString (per_page_sent (field "per_page" args))).
  set (pg := Number_toString p).
  assert (Hfinish : forall endpoint,
    exists outcome,
      (res <- vimeoRequest upstream endpoint "GET" JUndefined ;;
       if negb (is_status res 200) then
         ret (JSON_stringify (obj [("error", JStr "Failed to fetch videos");
                                   ("status", JNum (status res))]) compact)
       else
         lift (
           listed <- get (data res) "data" ;;
           mapped <- opt_chain listed (fun l => call_map l extractVideoMinimal) ;;
           let videos := or_else mapped (JArr []) in
           res_total <- get (data res) "total" ;;
           let total := or_else res_total (array_length videos) in
           ret (JSON_stringify (obj [("total", total); ("page", JNum p);
                                     ("per_page",
                                      JNum (per_page_sent (field "per_page" args)));
                                     ("videos", videos)])
                               two_spaces))) log
      = (outcome, (log ++ [get_request endpoint])%list)).
  { intros endpoint. rewrite run_request. fold (get_request endpoint).
    destruct (upstream log (get_request endpoint)) as [sc parsed|e];
      [|eexists; reflexivity].
    destruct (negb (is_status (response_of sc parsed) 200));
      eexists; reflexivity. }
  destruct (string_or_absent_truthy _ Hfolder) as [Hf|[f [Hf Hft]]];
    destruct (string_or_absent_truthy _ Hsearch) as [Hs|[q [Hs Hst]]];
    rewrite ?Hft, ?Hst; try rewrite Hf; try rewrite Hs;
      cbn [ToString encodeURIComponent bind ret Monad_Outcome].
  - destruct (Hfinish ("/me/videos?per_page=" ++ pp ++ "&page=" ++ pg
                       ++ video_fields ++ ",parent_folder")) as [outcome Hrun].
    exists outcome, "/me/videos?", (pg ++ video_fields ++ ",parent_folder").
    split; [exact Hrun|now left].
  - destruct (Hfinish (("/me/videos?per_page=" ++ pp ++ "&page=" ++ pg
                        ++ video_fields ++ ",parent_folder")
                       ++ "&query=" ++ encodeURIComponent_string q))
      as [outcome Hrun].
    exists outcome, "/me/videos?",
      (pg ++ (video_fields ++ ",parent_folder") ++ "&query="
          ++ encodeURIComponent_string q).
    split; [|now left].
    replace ("/me/videos?" ++ "per_page=" ++ pp ++ "&page=" ++ pg
             ++ (video_fields ++ ",parent_folder") ++ "&query="
             ++ encodeURIComponent_string q)
      with (("/me/videos?per_page=" ++ pp ++ "&page=" ++ pg
             ++ video_fields ++ ",parent_folder")
            ++ "&query=" ++ encodeURIComponent_string q);
      [exact Hrun|].
    string_assoc.
  - destruct (Hfinish ("/me/projects/" ++ f ++ "/videos?per_page=" ++ pp
                       ++ "&page=" ++ pg ++ video_fields)) as [outcome Hrun].
    exists outcome, ("/me/projects/" ++ f ++ "/videos?"), (pg ++ video_fields).
    split; [|right; now exists f].
    replace (("/me/projects/" ++ f ++ "/videos?") ++ "per_page=" ++ pp
             ++ "&page=" ++ pg ++ video_fields)
      with ("/me/projects/" ++ f ++ "/videos?per_page=" ++ pp
            ++ "&page=" ++ pg ++ video_fields);
      [exact Hrun|].
    string_assoc.
  - destruct (Hfinish (("/me/projects/" ++ f ++ "/videos?per_page=" ++ pp
                        ++ "&page=" ++ pg ++ video_fields)
                       ++ "&query=" ++ encodeURIComponent_string q))
      as [outcome Hrun].
    exists outcome, ("/me/projects/" ++ f ++ "/videos?"),
      (pg ++ video_fields ++ "&query=" ++ encodeURIComponent_string q).
    split; [|right; now exists f].
    replace (("/me/projects/" ++ f ++ "/videos?") ++ "per_page=" ++ pp
             ++ "&page=" ++ pg ++ video_fields ++ "&query="
             ++ encodeURIComponent_string q)
      with (("/me/projects/" ++ f ++ "/videos?per_page=" ++ pp
             ++ "&page=" ++ pg ++ video_fields)
            ++ "&query=" ++ encodeURIComponent_string q);
      [exact Hrun|].
    string_assoc.
Qed.

End ListVideos.

Lemma list_videos_caps_per_page_witness :
  let args := [("per_page", JNum 500)] in
  list_videos_args_ok args = true
  /\ exists outcome front rest,
       handleListVideos no_numeric_strings always_ok (JObj args) []
       = (outcome,
          ([] ++ [get_request
                    (front ++ "per_page="
                     ++ Number_toString (per_page_sent (field "per_page" args))
                     ++ "&page=" ++ rest)])%list)
       /\ (front = "/me/videos?"
           \/ exists f, field "folder_id" args = JStr f
                        /\ front = "/me/projects/" ++ f ++ "/videos?").
Proof.
  intros args. split; [reflexivity|].
  exact (list_videos_caps_per_page no_numeric_strings always_ok args [] eq_refl).
Defined.

(** A call with per_page 500 asks the upstream for 100 per page. *)
Example list_videos_500 :
  snd (handleListVideos no_numeric_strings always_ok
         (obj [("per_page", JNum 500)]) [])
  = [get_request
       "/me/videos?per_page=100&page=1&fields=uri,name,duration,created_time,parent_folder"].
Proof. reflexivity. Qed.

(** C8 as stated fails: a per_page of 0 is supplied, and the request
    carries 50, not 0. *)
Lemma per_page_zero_sends_default :
  snd (handleListVideos no_numeric_strings always_ok
         (obj [("per_page", JNum 0)]) [])
  = [get_request
       "/me/videos?per_page=50&page=1&fields=uri,name,duration,created_time,parent_folder"]
  /\ ~ (forall StringToNumber (upstream : Network) args log n,
           field "per_page" args = JNum n ->
           field "folder_id" args = JUndefined ->
           exists outcome rest,
             handleListVideos StringToNumber upstream (JObj args) log
             = (outcome,
                (log ++ [get_request
                           ("/me/videos?per_page="
                            ++ Number_toString (Z.min n 100)
                            ++ "&page=" ++ rest)])%list)).
Proof.
  split; [reflexivity|].
  intros H.
  destruct (H no_numeric_strings always_ok [("per_page", JNum 0)] [] 0
              eq_refl eq_refl) as [outcome [rest Hrun]].
  apply (f_equal snd) in Hrun. vm_compute in Hrun. discriminate Hrun.
Qed.

(* ===================================================================== *)
(** ** get_stats *)
(* ===================================================================== *)

Lemma substring_whole (s : string) :
  String.substring 0 (String.length s) s = s.
Proof. induction s as [|c s IH]; simpl; [reflexivity|now rewrite IH]. Qed.

Lemma substring_split (s : string) (i : nat) :
  (i <= String.length s)%nat ->
  String.substring 0 i s ++ String.substring i (String.length s - i) s = s.
Proof.
  revert i. induction s as [|c s IH]; intros i Hi.
  - destruct i; reflexivity.
  - destruct i as [|i].
    + simpl. now rewrite substring_whole.
    + simpl in *. rewrite IH by lia. reflexivity.
Qed.

Lemma substring_length (s : string) (i j : nat) :
  (i + j <= String.length s)%nat ->
  String.length (String.substring i j s) = j.
Proof.
  revert i j. induction s as [|c s IH]; intros i j Hij.
  - simpl in Hij. destruct i, j; try lia; reflexivity.
  - destruct i as [|i].
    + destruct j as [|j]; [reflexivity|].
      simpl in *. rewrite IH by lia. reflexivity.
    + simpl in *. apply IH. lia.
Qed.

Lemma append_length (a b : string) :
  String.length (a ++ b) = (String.length a + String.length b)%nat.
Proof. induction a as [|c a IH]; simpl; [reflexivity|now rewrite IH]. Qed.

Lemma zeros_length k : String.length (zeros k) = k.
Proof. induction k as [|k IH]; simpl; [reflexivity|now rewrite IH]. Qed.

Lemma pad_zeros_length width m :
  (width <= String.length (pad_zeros width m))%nat.
Proof.
  unfold pad_zeros. rewrite append_length, zeros_length. lia.
Qed.

Lemma round_half_up_nearest bytes :
  0 <= bytes ->
  nearest_hundredth bytes (round_half_up (Qmake bytes 1073741824) 2).
Proof.
  intros Hpos. unfold nearest_hundredth, round_half_up.
  cbn [Qnum Qden]. rewrite Z.abs_eq by assumption.
  change (10 ^ Z.of_nat 2) with 100.
  change (2 * Z.pos 1073741824) with (2 ^ 31).
  change (Z.pos 1073741824) with (2 ^ 30).
  replace (2 * (bytes * 100)) with (200 * bytes) by lia.
  assert (H31 : 0 < 2 ^ 31) by reflexivity.
  pose proof (Z.mul_div_le (200 * bytes + 2 ^ 30) (2 ^ 31) H31).
  pose proof (Z.mul_succ_div_gt (200 * bytes + 2 ^ 30) (2 ^ 31) H31).
  unfold Z.succ in *. lia.
Qed.

Section Stats.

Variable StringToNumber : string -> option Z.

(** [(bytes / 1073741824).toFixed(2)] on a byte count. *)
Lemma gigabytes_of_bytes bytes :
  0 <= bytes ->
  exists text,
    gigabytes StringToNumber (JNum bytes) = Returned text
    /\ gigabytes_text bytes text.
Proof.
  intros Hpos.
  set (n := round_half_up (Qmake bytes 1073741824) 2).
  set (m := pad_zeros 3 (Number_toString n)).
  set (k := String.length m).
  exists (String.substring 0 (k - 2) m ++ "." ++ String.substring (k - 2) 2 m).
  assert (Hk : (3 <= k)%nat) by apply pad_zeros_length.
  split.
  - unfold gigabytes, divide, toFixed.
    cbn [ToNumber bind ret Monad_Outcome option_map Qnum].
    destruct (Z.ltb_spec bytes 0); [lia|]. reflexivity.
  - exists n. split; [now apply round_half_up_nearest|].
    exists (String.substring 0 (k - 2) m), (String.substring (k - 2) 2 m).
    split; [reflexivity|]. split.
    + apply substring_length. fold k. lia.
    + pose proof (substring_split m (k - 2)) as Hsplit.
      fold k in Hsplit.
      replace (k - (k - 2))%nat with 2%nat in Hsplit by lia.
      apply Hsplit. lia.
Qed.

End Stats.

(** C9.  [get_stats] reports the storage figures in gigabytes with two
    decimals: the byte count divided by 1073741824, rounded to the nearest
    hundredth (half up) and written with exactly two digits after the
    point.  (1073741824 bytes give "1.00": see the example below.) *)
Theorem get_stats_storage_in_gigabytes
        (StringToNumber : string -> option Z) (upstream : Network)
        (log : list Request)
        (sc1 sc2 sc3 : option Z) (p1 p2 p3 : option JsVal)
        (videos folders user : list (string * JsVal)) (used max : Z) :
  upstream log videos_probe = Answer sc1 p1 ->
  upstream (log ++ [videos_probe])%list folders_probe = Answer sc2 p2 ->
  upstream ((log ++ [videos_probe]) ++ [folders_probe])%list quota_request
  = Answer sc3 p3 ->
  data (response_of sc1 p1) = JObj videos ->
  data (response_of sc2 p2) = JObj folders ->
  data (response_of sc3 p3) = JObj user ->
  quota_space (JObj user) "used" = Returned (JNum used) ->
  quota_space (JObj user) "max" = Returned (JNum max) ->
  0 <= used < 2 ^ 53 ->
  0 <= max < 2 ^ 53 ->
  exists used_gb max_gb,
    handleGetStats StringToNumber upstream log
    = (Returned
         (JSON_stringify
            (obj [("total_videos", or_else (field "total" videos) (JNum 0));
                  ("total_folders", or_else (field "total" folders) (JNum 0));
                  ("storage_used_gb", JStr used_gb);
                  ("storage_max_gb", JStr max_gb)])
            two_spaces),
       (log ++ stats_requests)%list)
    /\ gigabytes_text used used_gb
    /\ gigabytes_text max max_gb.
Proof.
  intros H1 H2 H3 Hvideos Hfolders Huser Hused Hmax [Hu _] [Hm _].
  destruct (gigabytes_of_bytes StringToNumber used Hu) as [used_gb [Hug Hut]].
  destruct (gigabytes_of_bytes StringToNumber max Hm) as [max_gb [Hmg Hmt]].
  exists used_gb, max_gb. split; [|split; assumption].
  unfold handleGetStats.
  rewrite run_request.
  change (request_of "/me/videos?per_page=1&fields=uri" "GET" JUndefined)
    with videos_probe.
  rewrite H1.
  rewrite run_lift, Hvideos, get_object.
  rewrite run_request.
  change (request_of "/me/projects?per_page=1" "GET" JUndefined)
    with folders_probe.
  rewrite H2.
  rewrite run_lift, Hfolders, get_object.
  rewrite run_request.
  change (request_of "/me?fields=upload_quota" "GET" JUndefined)
    with quota_request.
  rewrite H3.
  rewrite Huser.
  rewrite run_lift, Hused. rewrite run_lift, Hmax.
  rewrite run_lift_last. cbn [bind Monad_Outcome ret].
  rewrite Hug, Hmg. unfold stats_requests.
  f_equal. now rewrite <- !app_assoc.
Qed.

Lemma get_stats_storage_in_gigabytes_witness :
  let videos := [("total", JNum 12); ("data", JArr [])] in
  let folders := [("total", JNum 3); ("data", JArr [])] in
  let user := [("upload_quota",
                obj [("space", obj [("used", JNum 1073741824);
                                    ("max", JNum 5368709120)])])] in
  quota_space (JObj user) "used" = Returned (JNum 1073741824)
  /\ 0 <= 1073741824 < 2 ^ 53
  /\ exists used_gb max_gb,
       handleGetStats no_numeric_strings one_gigabyte_used []
       = (Returned
            (JSON_stringify
               (obj [("total_videos", or_else (field "total" videos) (JNum 0));
                     ("total_folders", or_else (field "total" folders) (JNum 0));
                     ("storage_used_gb", JStr used_gb);
                     ("storage_max_gb", JStr max_gb)])
               two_spaces),
          ([] ++ stats_requests)%list)
       /\ gigabytes_text 1073741824 used_gb
       /\ gigabytes_text 5368709120 max_gb.
Proof.
  intros videos folders user.
  split; [reflexivity|]. split; [lia|].
  apply (get_stats_storage_in_gigabytes no_numeric_strings one_gigabyte_used []
           (Some 200) (Some 200) (Some 200)
           (Some (obj videos)) (Some (obj folders)) (Some (obj user))
           videos folders user 1073741824 5368709120);
    try reflexivity; lia.
Defined.

(** The scenario of the specification: 1073741824 bytes used. *)
Example get_stats_one_gigabyte :
  handleGetStats no_numeric_strings one_gigabyte_used []
  = (Returned
       (JSON_stringify
          (obj [("total_videos", JNum 12); ("total_folders", JNum 3);
                ("storage_used_gb", JStr "1.00");
                ("storage_max_gb", JStr "5.00")])
          two_spaces),
     stats_requests).
Proof. vm_compute. reflexivity. Qed.

(* ===================================================================== *)
(** ** list_folders *)
(* ===================================================================== *)

Section ListFolders.

Variable upstream : Network.

Lemma loop_done fuel folders page log :
  listFolders_loop upstream fuel folders page false log = (Returned folders, log).
Proof. destruct fuel; reflexivity. Qed.

Lemma loop_step fuel folders page log :
  listFolders_loop upstream (S fuel) folders page true log
  = (res <- vimeoRequest upstream (folders_endpoint page) "GET" JUndefined ;;
     listed <- lift (if is_status res 200 then get (data res) "data"
                     else ret (JBool false)) ;;
     if truthy listed then
       minimal <- lift (call_map listed extractFolderMinimal) ;;
       listFolders_loop upstream fuel (folders ++ items_of minimal)%list (page + 1)
                        (match array_length listed with
                         | JNum n => Z.eqb n 100
                         | _ => false
                         end)
     else
       listFolders_loop upstream fuel folders page false) log.
Proof. reflexivity. Qed.

Lemma loop_failed_page fuel folders page log :
  failed_page (upstream log (folders_request page)) ->
  listFolders_loop upstream (S fuel) folders page true log
  = (Returned folders, (log ++ [folders_request page])%list).
Proof.
  intros [sc [parsed [Hreply Hfail]]].
  rewrite loop_step, run_request. fold (get_request (folders_endpoint page)).
  fold (folders_request page). rewrite Hreply, run_lift. unfold is_status.
  destruct (Z.eqb_spec (status (response_of sc parsed)) 200) as [H200|Hnot].
  - destruct Hfail as [Hs|[body [Hbody Hfalsy]]]; [contradiction|].
    rewrite Hbody, get_object, Hfalsy. apply loop_done.
  - cbn [ret Monad_Outcome truthy]. apply loop_done.
Qed.

Lemma loop_page fuel folders page log items minimal :
  folder_page (upstream log (folders_request page)) items minimal ->
  listFolders_loop upstream (S fuel) folders page true log
  = listFolders_loop upstream fuel (folders ++ minimal)%list (page + 1)
                     (Nat.eqb (List.length items) 100)
                     (log ++ [folders_request page])%list.
Proof.
  intros [sc [parsed [body [Hreply [Hs [Hbody [Hdata Hmin]]]]]]].
  rewrite loop_step, run_request. fold (get_request (folders_endpoint page)).
  fold (folders_request page). rewrite Hreply, run_lift. unfold is_status.
  rewrite Hs, Hbody, get_object, Hdata. cbn [Z.eqb Pos.eqb truthy].
  rewrite run_lift. cbn [call_map bind Monad_Outcome ret]. rewrite Hmin.
  cbn [items_of array_length]. f_equal.
  destruct (Nat.eqb_spec (List.length items) 100) as [->|Hne]; [reflexivity|].
  apply Z.eqb_neq. lia.
Qed.

Lemma loop_listing log page folders requests :
  listing upstream log page folders requests ->
  forall fuel acc,
    (List.length requests <= fuel)%nat ->
    listFolders_loop upstream fuel acc page true log
    = (Returned (acc ++ folders)%list, (log ++ requests)%list).
Proof.
  induction 1 as [log page Hfail
                 |log page items minimal Hpage Hshort
                 |log page items minimal folders requests Hpage Hfull Hrest IH];
    intros fuel acc Hfuel;
    (destruct fuel as [|fuel]; [simpl in Hfuel; lia|]).
  - rewrite loop_failed_page by assumption. now rewrite app_nil_r.
  - rewrite (loop_page _ _ _ _ items minimal) by assumption.
    destruct (Nat.eqb_spec (List.length items) 100); [contradiction|].
    apply loop_done.
  - rewrite (loop_page _ _ _ _ items minimal) by assumption.
    rewrite Hfull. cbn [Nat.eqb].
    rewrite IH by (simpl in Hfuel; lia).
    now rewrite <- !app_assoc.
Qed.

Lemma listing_requests log page folders requests :
  listing upstream log page folders requests ->
  requests = map (fun i => folders_request (page + Z.of_nat i))
                 (seq 0 (List.length requests)).
Proof.
  induction 1 as [log page Hfail
                 |log page items minimal Hpage Hshort
                 |log page items minimal folders requests Hpage Hfull Hrest IH].
  - simpl. now rewrite Z.add_0_r.
  - simpl. now rewrite Z.add_0_r.
  - cbn [List.length seq map]. rewrite Z.add_0_r. f_equal.
    rewrite <- seq_shift, map_map. rewrite IH at 1.
    apply map_ext. intros i. f_equal. lia.
Qed.

(** C4.  When the upstream serves full pages of 100 folders up to a first
    page that is short or fails, [list_folders] fetches exactly those
    pages, in order and one request each, stops there, and returns
    {total, folders} with the minimal records of all folders served and
    their number as total; a failed page ends the listing with what was
    accumulated, not with an error. *)
Theorem list_folders_pages (log : list Request) (folders : list JsVal)
        (requests : list Request) (fuel : nat) :
  listing upstream log 1 folders requests ->
  (List.length requests <= fuel)%nat ->
  handleListFolders upstream fuel log
  = (Returned (list_folders_result folders), (log ++ requests)%list)
  /\ requests = page_requests (List.length requests).
Proof.
  intros Hlisting Hfuel. split.
  - unfold handleListFolders. cbn [bind Monad_Task].
    rewrite (loop_listing log 1 folders requests Hlisting fuel [] Hfuel).
    reflexivity.
  - rewrite (listing_requests log 1 folders requests Hlisting) at 1.
    unfold page_requests. rewrite <- seq_shift, map_map.
    apply map_ext. intros i. f_equal. lia.
Qed.

End ListFolders.

Lemma list_folders_pages_witness :
  listing hundred_folders [] 1 (map mock_minimal (seq 1 100) ++ []) (page_requests 2)
  /\ (List.length (page_requests 2) <= 2)%nat
  /\ handleListFolders hundred_folders 2 []
     = (Returned (list_folders_result (map mock_minimal (seq 1 100) ++ [])),
        ([] ++ page_requests 2)%list)
  /\ List.length (map mock_minimal (seq 1 100) ++ []) = 100%nat.
Proof.
  assert (Hlisting : listing hundred_folders [] 1
                             (map mock_minimal (seq 1 100) ++ [])
                             (page_requests 2)).
  { apply (listing_full hundred_folders [] 1 (map mock_folder (seq 1 100))).
    - exists (Some 200),
        (Some (obj [("total", JNum 100);
                    ("data", JArr (map mock_folder (seq 1 100)))])),
        [("total", JNum 100); ("data", JArr (map mock_folder (seq 1 100)))].
      repeat split.
    - reflexivity.
    - apply (listing_short hundred_folders _ 2 []).
      + exists (Some 200), (Some (obj [("total", JNum 100); ("data", JArr [])])),
          [("total", JNum 100); ("data", JArr [])].
        repeat split.
      + discriminate. }
  split; [exact Hlisting|]. split; [apply le_n|].
  split; [|reflexivity].
  exact (proj1 (list_folders_pages hundred_folders [] _ _ 2 Hlisting (le_n 2))).
Defined.

(** The scenario of the specification: two page fetches, total 100. *)
Example list_folders_hundred :
  snd (handleListFolders hundred_folders 7 []) = [folders_request 1; folders_request 2]
  /\ fst (handleListFolders hundred_folders 7 [])
     = Returned (list_folders_result (map mock_minimal (seq 1 100)))
  /\ String.prefix ("{" ++ newline ++ "  " ++ dquote ++ "total" ++ dquote
                    ++ ": 100," ++ newline)
                   (list_folders_result (map mock_minimal (seq 1 100)))
     = true.
Proof. repeat split; vm_compute; reflexivity. Qed.

(* ===================================================================== *)
(** ** Dispatch *)
(* ===================================================================== *)

Section Dispatch.

Variable StringToNumber : string -> option Z.
Variable upstream : Network.

Lemma run_tool_unknown fuel name args :
  ~ In name TOOLS ->
  run_tool StringToNumber upstream fuel name args
  = ret (JSON_stringify (obj [("error", JStr ("Unknown tool: " ++ name))])
                        compact).
Proof.
  intros Hnot. unfold run_tool.
  repeat match goal with
         | |- context [String.eqb name ?s] =>
             destruct (String.eqb_spec name s) as [->|_];
               [exfalso; apply Hnot; simpl; tauto|]
         end.
  reflexivity.
Qed.

(** The handler each registered name is routed to. *)
Lemma run_tool_routes fuel args :
  run_tool StringToNumber upstream fuel "list_folders" args
  = handleListFolders upstream fuel
  /\ run_tool StringToNumber upstream fuel "list_videos" args
     = handleListVideos StringToNumber upstream (or_else args (obj []))
  /\ run_tool StringToNumber upstream fuel "get_video" args
     = handleGetVideo upstream args
  /\ run_tool StringToNumber upstream fuel "get_folder_videos" args
     = handleGetFolderVideos StringToNumber upstream args
  /\ run_tool StringToNumber upstream fuel "move_video" args
     = handleMoveVideo upstream args
  /\ run_tool StringToNumber upstream fuel "create_folder" args
     = handleCreateFolder upstream args
  /\ run_tool StringToNumber upstream fuel "update_video" args
     = handleUpdateVideo upstream args
  /\ run_tool StringToNumber upstream fuel "search_videos" args
     = handleSearchVideos StringToNumber upstream args
  /\ run_tool StringToNumber upstream fuel "get_stats" args
     = handleGetStats StringToNumber upstream.
Proof. repeat split. Qed.

Lemma callTool_run fuel name args log :
  callTool StringToNumber upstream fuel name args log
  = match run_tool StringToNumber upstream fuel name args log with
    | (Returned text, log') => (Returned (text_content text), log')
    | (Thrown e, log') => (Returned (error_result (message e)), log')
    | (Unfinished, log') => (Unfinished, log')
    end.
Proof.
  unfold callTool. cbn [catch Exc_Task bind Monad_Task].
  destruct (run_tool StringToNumber upstream fuel name args log) as [[text|e|] log'];
    reflexivity.
Qed.

(** C5.  No call makes the dispatcher throw, whatever the name, the
    arguments and the upstream do: an unrecognized name returns
    {error: "Unknown tool: <name>"} without any request being sent, an
    error thrown while a handler runs comes back as an error result with
    the error's message, and a handler's result comes back as it is. *)
Theorem dispatch_never_throws (fuel : nat) (name : string) (args : JsVal)
        (log : list Request) :
  let call := callTool StringToNumber upstream fuel name args log in
  let handler := run_tool StringToNumber upstream fuel name args log in
  (forall e, fst call <> Thrown e)
  /\ (~ In name TOOLS ->
      call = (Returned (error_result ("Unknown tool: " ++ name)), log))
  /\ (forall e log', handler = (Thrown e, log') ->
                     call = (Returned (error_result (message e)), log'))
  /\ (forall text log', handler = (Returned text, log') ->
                        call = (Returned (text_content text), log')).
Proof.
  intros call handler. subst call handler. rewrite callTool_run.
  split; [|split; [|split]].
  - intros e.
    destruct (run_tool StringToNumber upstream fuel name args log) as [[text|e'|] log'];
      discriminate.
  - intros Hnot. now rewrite run_tool_unknown.
  - intros e log' ->. reflexivity.
  - intros text log' ->. reflexivity.
Qed.

End Dispatch.

Lemma dispatch_never_throws_witness :
  ~ In "delete_video" TOOLS
  /\ callTool no_numeric_strings always_ok 0 "delete_video" JUndefined []
     = (Returned (error_result "Unknown tool: delete_video"), [])
  /\ run_tool no_numeric_strings always_ok 0 "get_video" JUndefined []
     = (Thrown (cannot_read JUndefined "video_id"), [])
  /\ callTool no_numeric_strings always_ok 0 "get_video" JUndefined []
     = (Returned (error_result
                    "Cannot read properties of undefined (reading 'video_id')"),
        []).
Proof.
  assert (Hnot : ~ In "delete_video" TOOLS)
    by (simpl; intuition discriminate).
  pose proof (dispatch_never_throws no_numeric_strings always_ok 0
                "delete_video" JUndefined []) as Hunknown.
  pose proof (dispatch_never_throws no_numeric_strings always_ok 0
                "get_video" JUndefined []) as Hthrown.
  cbv zeta in Hunknown, Hthrown.
  split; [exact Hnot|].
  split; [exact (proj1 (proj2 Hunknown) Hnot)|].
  split; [reflexivity|].
  exact (proj1 (proj2 (proj2 Hthrown))
               (cannot_read JUndefined "video_id") [] eq_refl).
Defined.

(** A transport failure inside a handler comes back as an error result. *)
Example dispatch_transport_failure :
  callTool no_numeric_strings unreachable 5 "list_folders" JUndefined []
  = (Returned (error_result "connect ECONNREFUSED"), [folders_request 1]).
Proof. reflexivity. Qed.

(* ===================================================================== *)
(** ** More about list_folders *)
(* ===================================================================== *)

Lemma page_requests_from n :
  page_requests n
  = map (fun i => folders_request (1 + Z.of_nat i)) (seq 0 n).
Proof.
  unfold page_requests. rewrite <- seq_shift, map_map.
  apply map_ext. intros i. f_equal. lia.
Qed.

Lemma requests_from_succ page n :
  map (fun i => folders_request (page + Z.of_nat i)) (seq 0 (S n))
  = folders_request page
    :: map (fun i => folders_request (page + 1 + Z.of_nat i)) (seq 0 n).
Proof.
  cbn [seq map]. rewrite Z.add_0_r. f_equal.
  rewrite <- seq_shift, map_map. apply map_ext. intros i. f_equal. lia.
Qed.

Lemma requests_from_last page n :
  map (fun i => folders_request (page + Z.of_nat i)) (seq 0 (S n))
  = (map (fun i => folders_request (page + Z.of_nat i)) (seq 0 n)
     ++ [folders_request (page + Z.of_nat n)])%list.
Proof. rewrite seq_S, map_app. reflexivity. Qed.

Section ListFoldersMore.

Variable upstream : Network.

Lemma loop_endless :
  always_full upstream ->
  forall fuel acc page log,
    fst (listFolders_loop upstream fuel acc page true log) = Unfinished
    /\ snd (listFolders_loop upstream fuel acc page true log)
       = (log ++ map (fun i => folders_request (page + Z.of_nat i))
                     (seq 0 fuel))%list.
Proof.
  intros Hfull. induction fuel as [|fuel IH]; intros acc page log.
  - split; [reflexivity|]. simpl. now rewrite app_nil_r.
  - destruct (Hfull log page) as [items [minimal [Hpage Hlen]]].
    rewrite (loop_page upstream fuel acc page log items minimal Hpage).
    rewrite Hlen. cbn [Nat.eqb].
    destruct (IH (acc ++ minimal)%list (page + 1)
                 (log ++ [folders_request page])%list) as [Hout Hlog].
    split; [exact Hout|].
    rewrite Hlog, requests_from_succ, <- app_assoc. reflexivity.
Qed.

(** X1.  The paging loop has no ceiling: against an upstream that has a
    full page of 100 folders for every request, [list_folders] does not
    return within any number of iterations; after [fuel] iterations it has
    sent the requests for the pages 1 to [fuel] and is still running. *)
Theorem list_folders_has_no_ceiling (fuel : nat) (log : list Request) :
  always_full upstream ->
  handleListFolders upstream fuel log
  = (Unfinished, (log ++ page_requests fuel)%list).
Proof.
  intros Hfull.
  destruct (loop_endless Hfull fuel [] 1 log) as [Hout Hlog].
  unfold handleListFolders. cbn [bind Monad_Task].
  destruct (listFolders_loop upstream fuel [] 1 true log) as [out log'].
  simpl in Hout, Hlog. subst out log'.
  now rewrite page_requests_from.
Qed.

Lemma loop_full_pages log page n folders :
  full_pages upstream log page n folders ->
  forall fuel acc,
    listFolders_loop upstream (n + fuel) acc page true log
    = listFolders_loop upstream fuel (acc ++ folders)%list
        (page + Z.of_nat n) true
        (log ++ map (fun i => folders_request (page + Z.of_nat i))
                    (seq 0 n))%list.
Proof.
  induction 1 as [log page
                 |log page items minimal n folders Hpage Hlen Hrest IH];
    intros fuel acc.
  - cbn [plus seq map]. now rewrite Z.add_0_r, !app_nil_r.
  - cbn [plus]. rewrite (loop_page upstream _ acc page log items minimal Hpage).
    rewrite Hlen. cbn [Nat.eqb]. rewrite IH.
    rewrite requests_from_succ, <- !app_assoc.
    replace (page + 1 + Z.of_nat n) with (page + Z.of_nat (S n)) by lia.
    reflexivity.
Qed.

Lemma loop_transport_error fuel acc page log e :
  upstream log (folders_request page) = NetworkError e ->
  listFolders_loop upstream (S fuel) acc page true log
  = (Thrown e, (log ++ [folders_request page])%list).
Proof.
  intros Hreply. rewrite loop_step, run_request.
  fold (get_request (folders_endpoint page)). fold (folders_request page).
  now rewrite Hreply.
Qed.

(** X2.  A transport failure is not a failed page: when the upstream has
    served [n] full pages and the request for page [n + 1] fails at the
    transport level, [list_folders] throws that error (the folders already
    fetched are not returned), and the dispatcher turns it into an error
    result carrying the error's message. *)
Theorem list_folders_transport_failure
        (StringToNumber : string -> option Z) (args : JsVal)
        (log : list Request) (n : nat) (folders : list JsVal)
        (e : JsError) (fuel : nat) :
  full_pages upstream log 1 n folders ->
  upstream (log ++ page_requests n)%list (folders_request (Z.of_nat (S n)))
  = NetworkError e ->
  (n < fuel)%nat ->
  handleListFolders upstream fuel log
  = (Thrown e, (log ++ page_requests (S n))%list)
  /\ callTool StringToNumber upstream fuel "list_folders" args log
     = (Returned (error_result (message e)), (log ++ page_requests (S n))%list).
Proof.
  intros Hfull Hreply Hfuel.
  assert (Hrun : handleListFolders upstream fuel log
                 = (Thrown e, (log ++ page_requests (S n))%list)).
  { unfold handleListFolders. cbn [bind Monad_Task].
    replace fuel with (n + S (fuel - S n))%nat by lia.
    rewrite (loop_full_pages log 1 n folders Hfull).
    rewrite <- page_requests_from.
    replace (1 + Z.of_nat n) with (Z.of_nat (S n)) by lia.
    rewrite (loop_transport_error _ _ _ _ e Hreply).
    rewrite !page_requests_from, requests_from_last, <- app_assoc.
    replace (1 + Z.of_nat n) with (Z.of_nat (S n)) by lia.
    reflexivity. }
  split; [exact Hrun|].
  rewrite callTool_run.
  change (run_tool StringToNumber upstream fuel "list_folders" args)
    with (handleListFolders upstream fuel).
  now rewrite Hrun.
Qed.

(** X3.  A failure status on the first page cannot be told from an empty
    account: whether the first page comes back with a status other than
    200 (whatever its body) or with 200 and an empty list, [list_folders]
    returns the same {total: 0, folders: []} after one request. *)
Theorem list_folders_failure_looks_empty
        (log : list Request) (statusCode : option Z) (parsed : option JsVal)
        (fuel : nat) :
  let res := response_of statusCode parsed in
  upstream log (folders_request 1) = Answer statusCode parsed ->
  status res <> 200
  \/ (exists body, data res = JObj body /\ field "data" body = JArr []) ->
  handleListFolders upstream (S fuel) log
  = (Returned (list_folders_result []), (log ++ [folders_request 1])%list).
Proof.
  intros res Hreply Hcase.
  unfold handleListFolders. cbn [bind Monad_Task].
  destruct (Z.eq_dec (status res) 200) as [H200|Hnot].
  - destruct Hcase as [Hs|[body [Hbody Hdata]]]; [contradiction|].
    rewrite (loop_page upstream fuel [] 1 log [] []).
    + cbn [List.length Nat.eqb]. rewrite loop_done. reflexivity.
    + exists statusCode, parsed, body. repeat split; assumption.
  - rewrite loop_failed_page; [reflexivity|].
    exists statusCode, parsed. split; [assumption|now left].
Qed.

End ListFoldersMore.

Lemma list_folders_has_no_ceiling_witness :
  always_full endless_folders
  /\ handleListFolders endless_folders 3 []
     = (Unfinished, ([] ++ page_requests 3)%list).
Proof.
  assert (Hfull : always_full endless_folders).
  { intros log page.
    exists (map mock_folder (seq 1 100)), (map mock_minimal (seq 1 100)).
    split; [|reflexivity].
    exists (Some 200),
      (Some (obj [("data", JArr (map mock_folder (seq 1 100)))])),
      [("data", JArr (map mock_folder (seq 1 100)))].
    repeat split. }
  split; [exact Hfull|].
  exact (list_folders_has_no_ceiling endless_folders 3 [] Hfull).
Defined.

Lemma list_folders_transport_failure_witness :
  full_pages drops_after_first_page [] 1 1 (map mock_minimal (seq 1 100) ++ [])
  /\ (1 < 2)%nat
  /\ callTool no_numeric_strings drops_after_first_page 2 "list_folders"
       JUndefined []
     = (Returned (error_result "socket hang up"), ([] ++ page_requests 2)%list).
Proof.
  assert (Hfull : full_pages drops_after_first_page [] 1 1
                             (map mock_minimal (seq 1 100) ++ [])).
  { apply (full_pages_more drops_after_first_page [] 1
             (map mock_folder (seq 1 100))).
    - exists (Some 200),
        (Some (obj [("data", JArr (map mock_folder (seq 1 100)))])),
        [("data", JArr (map mock_folder (seq 1 100)))].
      repeat split.
    - reflexivity.
    - constructor. }
  split; [exact Hfull|]. split; [lia|].
  exact (proj2 (list_folders_transport_failure drops_after_first_page
                  no_numeric_strings JUndefined [] 1 _
                  {| err_name := "Error"; message := "socket hang up" |} 2
                  Hfull eq_refl (le_n 2))).
Defined.

Lemma list_folders_failure_looks_empty_witness :
  unauthorized [] (folders_request 1)
  = Answer (Some 401)
           (Some (obj [("error", JStr "You must provide a valid authenticated access token.")]))
  /\ handleListFolders unauthorized 1 []
     = (Returned (list_folders_result []), ([] ++ [folders_request 1])%list).
Proof.
  split; [reflexivity|].
  apply (list_folders_failure_looks_empty unauthorized [] (Some 401)
           (Some (obj [("error", JStr "You must provide a valid authenticated access token.")]))
           0 eq_refl).
  left. discriminate.
Defined.

(* ===================================================================== *)
(** ** move_video *)
(* ===================================================================== *)

(** X4.  [move_video] sends one POST to the items collection of the target
    folder, naming the video by its uri, and always answers
    {success, video_id, folder_id} with the caller's identifiers: success
    is true exactly for the statuses 200, 201 and 204, and no status and no
    response body makes it an error result. *)
Theorem move_video_reports_flag
        (upstream : Network) (args : list (string * JsVal))
        (folder_id video_id : string) (log : list Request)
        (statusCode : option Z) (parsed : option JsVal) :
  let s := status (response_of statusCode parsed) in
  ToString (field "folder_id" args) = Returned folder_id ->
  ToString (field "video_id" args) = Returned video_id ->
  upstream log (move_request folder_id video_id) = Answer statusCode parsed ->
  exists success,
    handleMoveVideo upstream (JObj args) log
    = (Returned (JSON_stringify
                   (obj [("success", JBool success);
                         ("video_id", field "video_id" args);
                         ("folder_id", field "folder_id" args)])
                   compact),
       (log ++ [move_request folder_id video_id])%list)
    /\ (success = true <-> s = 200 \/ s = 201 \/ s = 204).
Proof.
  intros s Hf Hv Hreply.
  exists (Z.eqb s 204 || Z.eqb s 200 || Z.eqb s 201). split.
  - unfold handleMoveVideo.
    rewrite run_lift, get_object. cbn [bind Monad_Outcome]. rewrite Hf.
    rewrite run_lift, get_object. cbn [bind Monad_Outcome]. rewrite Hv.
    rewrite run_request. fold (move_request folder_id video_id).
    rewrite Hreply. reflexivity.
  - rewrite !orb_true_iff, !Z.eqb_eq. tauto.
Qed.

Lemma move_video_reports_flag_witness :
  let args := [("video_id", JNum 123456); ("folder_id", JStr "789")] in
  ToString (field "folder_id" args) = Returned "789"
  /\ ToString (field "video_id" args) = Returned "123456"
  /\ exists success,
       handleMoveVideo no_content (JObj args) []
       = (Returned (JSON_stringify
                      (obj [("success", JBool success);
                            ("video_id", field "video_id" args);
                            ("folder_id", field "folder_id" args)])
                      compact),
          ([] ++ [move_request "789" "123456"])%list)
       /\ (success = true <->
           status (response_of (Some 204) None) = 200
           \/ status (response_of (Some 204) None) = 201
           \/ status (response_of (Some 204) None) = 204).
Proof.
  intros args. split; [reflexivity|]. split; [reflexivity|].
  exact (move_video_reports_flag no_content args "789" "123456" []
           (Some 204) None eq_refl eq_refl eq_refl).
Defined.

(* ===================================================================== *)
(** ** More about update_video *)
(* ===================================================================== *)

(** X5.  [update_video] sends its PATCH whatever the arguments hold: when no
    field among name, description and tags has a truthy value the request
    still goes out, with the empty object as body.  It reports success
    exactly when the status is 200 and never inspects the response
    body. *)
Theorem update_video_always_patches
        (upstream : Network) (args : list (string * JsVal)) (sv : string)
        (log : list Request) (statusCode : option Z) (parsed : option JsVal) :
  let req := update_request sv (obj (kept_fields args)) in
  ToString (field "video_id" args) = Returned sv ->
  upstream log req = Answer statusCode parsed ->
  handleUpdateVideo upstream (JObj args) log
  = (Returned
       (JSON_stringify
          (obj [("success",
                 JBool (Z.eqb (status (response_of statusCode parsed)) 200));
                ("video_id", field "video_id" args)])
          compact),
     (log ++ [req])%list)
  /\ ((forall k, is_update_field k = true -> truthy (field k args) = false) ->
      written req = Some "{}").
Proof.
  intros req Hsv Hreply. split.
  - rewrite (handleUpdateVideo_run upstream args sv log Hsv).
    cbv zeta. fold req. now rewrite Hreply.
  - intros Hnone. unfold req, kept_fields. cbn [flat_map].
    rewrite !Hnone by reflexivity. reflexivity.
Qed.

Lemma update_video_always_patches_witness :
  let args := [("video_id", JStr "42"); ("name", JStr "")] in
  ToString (field "video_id" args) = Returned "42"
  /\ (forall k, is_update_field k = true -> truthy (field k args) = false)
  /\ snd (handleUpdateVideo always_ok (JObj args) [])
     = ([] ++ [update_request "42" (obj (kept_fields args))])%list
  /\ written (update_request "42" (obj (kept_fields args))) = Some "{}".
Proof.
  intros args.
  assert (Hnone : forall k, is_update_field k = true ->
                            truthy (field k args) = false).
  { intros k Hk. unfold is_update_field in Hk. cbn [existsb] in Hk.
    rewrite !orb_true_iff in Hk.
    destruct Hk as [Hk|[Hk|[Hk|Hk]]]; try discriminate;
      apply String.eqb_eq in Hk; subst k; reflexivity. }
  pose proof (update_video_always_patches always_ok args "42" []
                (Some 200) (Some (obj [])) eq_refl eq_refl) as [Hrun Hempty].
  split; [reflexivity|]. split; [exact Hnone|].
  split; [now rewrite Hrun|exact (Hempty Hnone)].
Defined.

(* ===================================================================== *)
(** ** Reading properties *)
(* ===================================================================== *)

Lemma get_prop v k : nullish v = false -> get v k = Returned (prop v k).
Proof. destruct v; simpl; try discriminate; reflexivity. Qed.

Lemma opt_chain_get v k :
  opt_chain v (fun p => get p k) = Returned (opt_prop v k).
Proof.
  unfold opt_chain, opt_prop. destruct (nullish v) eqn:Hv; [reflexivity|].
  now apply get_prop.
Qed.

Lemma opt_prop_nullish v k : nullish v = true -> opt_prop v k = JUndefined.
Proof. unfold opt_prop. now intros ->. Qed.

Lemma videos_total_value info :
  videos_total (JObj info) = Returned (nested_total info).
Proof.
  unfold videos_total, nested_total. rewrite get_object.
  cbn [bind Monad_Outcome]. unfold opt_chain at 1.
  destruct (nullish (field "metadata" info)) eqn:Hm.
  { now rewrite (opt_prop_nullish _ "connections" Hm). }
  rewrite (get_prop _ "connections" Hm). cbn [bind Monad_Outcome].
  unfold opt_prop at 3. rewrite Hm.
  unfold opt_chain at 1.
  destruct (nullish (prop (field "metadata" info) "connections")) eqn:Hc.
  { now rewrite (opt_prop_nullish _ "videos" Hc). }
  rewrite (get_prop _ "videos" Hc). cbn [bind Monad_Outcome].
  unfold opt_prop at 2. rewrite Hc.
  apply opt_chain_get.
Qed.

Section Paging.

Variable StringToNumber : string -> option Z.

Lemma page_of_value args :
  number_or_absent (field "page" args) = true ->
  page_of (JObj args) = Returned (JNum (page_sent (field "page" args))).
Proof.
  intros Hok. unfold page_of. rewrite get_object.
  cbn [bind Monad_Outcome ret].
  destruct (field "page" args) as [| | |n| | | |]; try discriminate;
    try reflexivity.
  unfold or_else, page_sent. cbn [truthy].
  destruct (Z.eqb n 0); reflexivity.
Qed.

Lemma perPage_of_value args fallback :
  number_or_absent (field "per_page" args) = true ->
  perPage_of StringToNumber (JObj args) fallback
  = Returned (JNum (page_size fallback (field "per_page" args))).
Proof.
  intros Hok. unfold perPage_of. rewrite get_object.
  cbn [bind Monad_Outcome].
  destruct (field "per_page" args) as [| | |n| | | |]; try discriminate;
    try reflexivity.
  unfold or_else, page_size. cbn [truthy].
  destruct (Z.eqb n 0); reflexivity.
Qed.

End Paging.

(* ===================================================================== *)
(** ** get_folder_videos *)
(* ===================================================================== *)

Section FolderVideos.

Variable StringToNumber : string -> option Z.
Variable upstream : Network.

(** X6.  [get_folder_videos] sends two requests in order, the folder's
    info and its page of videos, and never looks at the status of the
    first: whatever it is, a response without a name or a count only
    degrades the result to folder "Unknown" and total 0.  A status other
    than 200 on the second request gives
    {error: "Failed to fetch folder videos", status}; on 200 the result is
    {folder, total, page, per_page, videos} with the page number and the
    effective page size (default 50, at most 100). *)
Theorem get_folder_videos_degrades
        (args : list (string * JsVal)) (folder_id : string)
        (log : list Request) (sc1 sc2 : option Z) (p1 p2 : option JsVal)
        (info : list (string * JsVal)) :
  let size := page_size 50 (field "per_page" args) in
  let page := page_sent (field "page" args) in
  let r1 := folder_info_request folder_id in
  let r2 := folder_videos_request folder_id size page in
  let res := response_of sc2 p2 in
  let run := handleGetFolderVideos StringToNumber upstream (JObj args) log in
  paging_args_ok args = true ->
  ToString (field "folder_id" args) = Returned folder_id ->
  upstream log r1 = Answer sc1 p1 ->
  data (response_of sc1 p1) = JObj info ->
  upstream (log ++ [r1])%list r2 = Answer sc2 p2 ->
  (status res <> 200 ->
   run = (Returned (JSON_stringify
                      (obj [("error", JStr "Failed to fetch folder videos");
                            ("status", JNum (status res))]) compact),
          (log ++ [r1; r2])%list))
  /\ (forall body items records,
        status res = 200 ->
        data res = JObj body ->
        field "data" body = JArr items ->
        mapM folderVideoRecord items = Returned records ->
        run = (Returned
                 (JSON_stringify
                    (obj [("folder", or_else (field "name" info) (JStr "Unknown"));
                          ("total", or_else (nested_total info) (JNum 0));
                          ("page", JNum page);
                          ("per_page", JNum size);
                          ("videos", JArr records)])
                    two_spaces),
               (log ++ [r1; r2])%list)).
Proof.
  intros size page r1 r2 res run Hargs Hfolder Hreply1 Hinfo Hreply2.
  unfold paging_args_ok in Hargs. apply andb_prop in Hargs.
  destruct Hargs as [Hpage Hper].
  assert (Hrun : run =
    (if negb (is_status res 200) then
       ret (JSON_stringify (obj [("error", JStr "Failed to fetch folder videos");
                                 ("status", JNum (status res))]) compact)
     else
       lift (
         listed <- get (data res) "data" ;;
         mapped <- opt_chain listed (fun l => call_map l folderVideoRecord) ;;
         let videos := or_else mapped (JArr []) in
         ret (JSON_stringify
                (obj [("folder", or_else (field "name" info) (JStr "Unknown"));
                      ("total", or_else (nested_total info) (JNum 0));
                      ("page", JNum page); ("per_page", JNum size);
                      ("videos", videos)])
                two_spaces))) ((log ++ [r1]) ++ [r2])%list).
  { unfold run, handleGetFolderVideos.
    rewrite run_lift, (page_of_value args Hpage).
    rewrite run_lift, (perPage_of_value StringToNumber args 50 Hper).
    rewrite run_lift, get_object. cbn [bind Monad_Outcome]. rewrite Hfolder.
    rewrite run_request.
    change (request_of ("/me/projects/" ++ folder_id
                        ++ "?fields=name,metadata.connections.videos.total")
                       "GET" JUndefined) with r1.
    rewrite Hreply1, Hinfo.
    rewrite run_lift, get_object.
    rewrite run_lift, videos_total_value.
    rewrite run_lift. cbn [ToString bind Monad_Outcome ret].
    rewrite run_request.
    change (request_of ("/me/projects/" ++ folder_id ++ "/videos?per_page="
                        ++ Number_toString (page_size 50 (field "per_page" args))
                        ++ "&page="
                        ++ Number_toString (page_sent (field "page" args))
                        ++ video_fields) "GET" JUndefined) with r2.
    rewrite Hreply2. reflexivity. }
  clearbody run. subst run. rewrite <- app_assoc. cbn [app].
  unfold is_status. split.
  - intros Hs. destruct (Z.eqb_spec (status res) 200); [contradiction|].
    reflexivity.
  - intros body items records Hs Hbody Hdata Hrecords.
    rewrite Hs, Hbody. cbn [Z.eqb Pos.eqb negb].
    rewrite run_lift_last, get_object, Hdata.
    cbn [bind Monad_Outcome ret opt_chain nullish call_map].
    now rewrite Hrecords.
Qed.

End FolderVideos.

Lemma get_folder_videos_degrades_witness :
  let args := [("folder_id", JStr "789"); ("per_page", JNum 500)] in
  let info := [("error", JStr "The requested folder could not be found.")] in
  paging_args_ok args = true
  /\ ToString (field "folder_id" args) = Returned "789"
  /\ status (response_of (Some 404) (Some (obj info))) <> 200
  /\ handleGetFolderVideos no_numeric_strings not_found (JObj args) []
     = (Returned (JSON_stringify
                    (obj [("error", JStr "Failed to fetch folder videos");
                          ("status", JNum 404)]) compact),
        ([] ++ [folder_info_request "789";
                folder_videos_request "789" 100 1])%list).
Proof.
  intros args info.
  assert (Hs : status (response_of (Some 404) (Some (obj info))) <> 200)
    by discriminate.
  split; [reflexivity|]. split; [reflexivity|]. split; [exact Hs|].
  exact (proj1 (get_folder_videos_degrades no_numeric_strings not_found args
                  "789" [] (Some 404) (Some 404) (Some (obj info))
                  (Some (obj info)) info eq_refl eq_refl eq_refl eq_refl
                  eq_refl) Hs).
Defined.

(** A folder whose info cannot be fetched while its videos can: the name
    and the count fall back, the videos are listed. *)
Example get_folder_videos_unknown_folder :
  let upstream : Network :=
    fun log _ =>
      match log with
      | [] => Answer (Some 500) None
      | _ :: _ => Answer (Some 200)
                         (Some (obj [("data",
                                      JArr [obj [("uri", JStr "/videos/5");
                                                 ("name", JStr "Clip")]])]))
      end in
  fst (handleGetFolderVideos no_numeric_strings upstream
         (obj [("folder_id", JStr "789")]) [])
  = Returned (JSON_stringify
                (obj [("folder", JStr "Unknown"); ("total", JNum 0);
                      ("page", JNum 1); ("per_page", JNum 50);
                      ("videos", JArr [obj [("id", JStr "5");
                                            ("name", JStr "Clip")]])])
                two_spaces).
Proof. vm_compute. reflexivity. Qed.

(* ===================================================================== *)
(** ** list_videos and search_videos *)
(* ===================================================================== *)

Lemma listed_records f listed records :
  listed_as f listed records ->
  (mapped <- opt_chain listed (fun l => call_map l f) ;;
   ret (or_else mapped (JArr []))) = Returned (JArr records).
Proof.
  destruct listed; cbn [listed_as]; try contradiction.
  - intros ->. reflexivity.
  - intros ->. reflexivity.
  - intros Hmap. cbn [opt_chain nullish call_map bind Monad_Outcome ret].
    now rewrite Hmap.
Qed.

Lemma uri_safe_app a b : uri_safe (a ++ b) = uri_safe a && uri_safe b.
Proof.
  induction a as [|c a IH]; simpl; [reflexivity|].
  rewrite IH. now rewrite andb_assoc.
Qed.

Lemma escaped_unit_safe (c : ascii) :
  uri_safe (let n := nat_of_ascii c in
            if unreserved c then String c EmptyString
            else if Nat.ltb n 128 then percent n
            else percent (192 + Nat.div n 64) ++ percent (128 + Nat.modulo n 64))
  = true.
Proof. destruct c as [[] [] [] [] [] [] [] []]; vm_compute; reflexivity. Qed.

Lemma encodeURIComponent_safe s : uri_safe (encodeURIComponent_string s) = true.
Proof.
  induction s as [|c rest IH]; [reflexivity|].
  cbn [encodeURIComponent_string]. rewrite uri_safe_app, IH.
  now rewrite escaped_unit_safe.
Qed.

Lemma uri_safe_chars s c :
  uri_safe s = true -> has_char c s = true -> unreserved c = true \/ c = "%"%char.
Proof.
  induction s as [|c' rest IH]; simpl; [discriminate|].
  intros Hsafe Hin. apply andb_prop in Hsafe. destruct Hsafe as [Hc Hrest].
  apply orb_prop in Hin. destruct Hin as [Heq|Hin]; [|now apply IH].
  apply Ascii.eqb_eq in Heq. subst c'.
  apply orb_prop in Hc. destruct Hc as [Hc|Hc]; [now left|].
  right. now apply Ascii.eqb_eq.
Qed.

Section Listings.

Variable StringToNumber : string -> option Z.
Variable upstream : Network.

(** The request of [list_videos] is built from the arguments alone; what
    follows it is the same for every endpoint. *)
Lemma handleListVideos_request args log :
  list_videos_args_ok args = true ->
  exists endpoint,
    handleListVideos StringToNumber upstream (JObj args) log
    = (res <- vimeoRequest upstream endpoint "GET" JUndefined ;;
       if negb (is_status res 200) then
         ret (JSON_stringify (obj [("error", JStr "Failed to fetch videos");
                                   ("status", JNum (status res))]) compact)
       else
         lift (
           listed <- get (data res) "data" ;;
           mapped <- opt_chain listed (fun l => call_map l extractVideoMinimal) ;;
           let videos := or_else mapped (JArr []) in
           res_total <- get (data res) "total" ;;
           let total := or_else res_total (array_length videos) in
           ret (JSON_stringify
                  (obj [("total", total);
                        ("page", JNum (page_sent (field "page" args)));
                        ("per_page", JNum (per_page_sent (field "per_page" args)));
                        ("videos", videos)])
                  two_spaces))) log.
Proof.
  unfold list_videos_args_ok. intros Hok.
  apply andb_prop in Hok. destruct Hok as [Hok Hsearch].
  apply andb_prop in Hok. destruct Hok as [Hok Hfolder].
  apply andb_prop in Hok. destruct Hok as [Hpage Hper].
  unfold handleListVideos.
  rewrite run_lift, (page_of_value args Hpage).
  rewrite run_lift, (perPage_of_number StringToNumber args Hper).
  rewrite run_lift, !get_object.
  cbn [ToString bind Monad_Outcome].
  destruct (string_or_absent_truthy _ Hfolder) as [Hf|[f [Hf Hft]]];
    destruct (string_or_absent_truthy _ Hsearch) as [Hs|[q [Hs Hst]]];
    rewrite ?Hft, ?Hst; try rewrite Hf; try rewrite Hs;
      cbn [ToString encodeURIComponent bind ret Monad_Outcome];
      eexists; reflexivity.
Qed.

(** X7.  [list_videos] sends one request and turns its answer into a
    result without ever throwing on a status: any status other than 200
    gives {error: "Failed to fetch videos", status}, the body unread.  On
    200 the result is {total, page, per_page, videos} with the minimal
    records of the listed videos, the page number, the effective page size,
    and as total the upstream's figure or, when the response has none (or
    0), the number of videos on the page. *)
Theorem list_videos_result
        (args : list (string * JsVal)) (log : list Request)
        (statusCode : option Z) (parsed : option JsVal) :
  let res := response_of statusCode parsed in
  let run := handleListVideos StringToNumber upstream (JObj args) log in
  list_videos_args_ok args = true ->
  (forall req, upstream log req = Answer statusCode parsed) ->
  (status res <> 200 ->
   fst run = Returned (JSON_stringify
                         (obj [("error", JStr "Failed to fetch videos");
                               ("status", JNum (status res))]) compact))
  /\ (forall body records,
        status res = 200 ->
        data res = JObj body ->
        listed_as extractVideoMinimal (field "data" body) records ->
        fst run
        = Returned
            (JSON_stringify
               (obj [("total", reported_total body records);
                     ("page", JNum (page_sent (field "page" args)));
                     ("per_page", JNum (per_page_sent (field "per_page" args)));
                     ("videos", JArr records)])
               two_spaces)).
Proof.
  intros res run Hargs Hreply.
  destruct (handleListVideos_request args log Hargs) as [endpoint Hrun].
  unfold run. rewrite Hrun, run_request, Hreply. fold res.
  unfold is_status. split.
  - intros Hs. destruct (Z.eqb_spec (status res) 200); [contradiction|].
    reflexivity.
  - intros body records Hs Hbody Hlisted.
    rewrite Hs, Hbody. cbn [Z.eqb Pos.eqb negb].
    rewrite run_lift_last, !get_object. cbn [fst].
    pose proof (listed_records _ _ _ Hlisted) as Hrec.
    cbn [bind Monad_Outcome ret] in *.
    destruct (opt_chain (field "data" body)
                        (fun l => call_map l extractVideoMinimal)) as [m| |];
      try discriminate.
    injection Hrec as ->. reflexivity.
Qed.

End Listings.

Lemma list_videos_result_witness :
  let body :=
    [("data",
      JArr [obj [("uri", JStr "/videos/11"); ("name", JStr "First");
                 ("duration", JNum 60);
                 ("created_time", JStr "2025-01-10T08:00:00+00:00");
                 ("parent_folder", obj [("name", JStr "Marketing")])];
            obj [("uri", JStr "/videos/12")]])] in
  let records :=
    [obj [("id", JStr "11"); ("name", JStr "First"); ("duration", JNum 60);
          ("created", JStr "2025-01-10"); ("folder", JStr "Marketing")];
     obj [("id", JStr "12"); ("name", JStr "Untitled"); ("duration", JNum 0);
          ("created", JStr ""); ("folder", JUndefined)]] in
  list_videos_args_ok [] = true
  /\ listed_as extractVideoMinimal (field "data" body) records
  /\ fst (handleListVideos no_numeric_strings two_videos (JObj []) [])
     = Returned
         (JSON_stringify
            (obj [("total", JNum 2); ("page", JNum 1); ("per_page", JNum 50);
                  ("videos", JArr records)])
            two_spaces).
Proof.
  intros body records.
  assert (Hlisted : listed_as extractVideoMinimal (field "data" body) records)
    by reflexivity.
  split; [reflexivity|]. split; [exact Hlisted|].
  exact (proj2 (list_videos_result no_numeric_strings two_videos [] []
                  (Some 200) (Some (obj body)) eq_refl (fun _ => eq_refl))
               body records eq_refl eq_refl Hlisted).
Defined.

Section Search.

Variable StringToNumber : string -> option Z.
Variable upstream : Network.

(** X8.  [search_videos] sends one request to the unscoped listing with
    the query first, URI-encoded (nothing but unreserved characters and
    percent escapes, so no [&] of the caller's text reaches the endpoint),
    then the page size (default 25, at most 100) and the page.  A status
    other than 200 gives {error: "Search failed", status}; on 200 the
    result echoes the query and lists the minimal records, with the same
    total rule as [list_videos]. *)
Theorem search_videos_result
        (args : list (string * JsVal)) (query : string) (log : list Request)
        (statusCode : option Z) (parsed : option JsVal) :
  let size := page_size 25 (field "per_page" args) in
  let page := page_sent (field "page" args) in
  let req := search_request query size page in
  let res := response_of statusCode parsed in
  let run := handleSearchVideos StringToNumber upstream (JObj args) log in
  paging_args_ok args = true ->
  ToString (field "query" args) = Returned query ->
  upstream log req = Answer statusCode parsed ->
  uri_safe (encodeURIComponent_string query) = true
  /\ has_char "&" (encodeURIComponent_string query) = false
  /\ (status res <> 200 ->
      run = (Returned (JSON_stringify
                         (obj [("error", JStr "Search failed");
                               ("status", JNum (status res))]) compact),
             (log ++ [req])%list))
  /\ (forall body records,
        status res = 200 ->
        data res = JObj body ->
        listed_as extractVideoMinimal (field "data" body) records ->
        run = (Returned
                 (JSON_stringify
                    (obj [("query", field "query" args);
                          ("total", reported_total body records);
                          ("page", JNum page);
                          ("per_page", JNum size);
                          ("videos", JArr records)])
                    two_spaces),
               (log ++ [req])%list)).
Proof.
  intros size page req res run Hargs Hquery Hreply.
  unfold paging_args_ok in Hargs. apply andb_prop in Hargs.
  destruct Hargs as [Hpage Hper].
  pose proof (encodeURIComponent_safe query) as Hsafe.
  split; [exact Hsafe|]. split.
  { destruct (has_char "&" (encodeURIComponent_string query)) eqn:Hamp;
      [|reflexivity].
    destruct (uri_safe_chars _ _ Hsafe Hamp); discriminate. }
  assert (Hrun : run =
    (if negb (is_status res 200) then
       ret (JSON_stringify (obj [("error", JStr "Search failed");
                                 ("status", JNum (status res))]) compact)
     else
       lift (
         listed <- get (data res) "data" ;;
         mapped <- opt_chain listed (fun l => call_map l extractVideoMinimal) ;;
         let videos := or_else mapped (JArr []) in
         res_total <- get (data res) "total" ;;
         let total := or_else res_total (array_length videos) in
         ret (JSON_stringify (obj [("query", field "query" args);
                                   ("total", total);
                                   ("page", JNum page); ("per_page", JNum size);
                                   ("videos", videos)])
                             two_spaces))) (log ++ [req])%list).
  { unfold run, handleSearchVideos.
    rewrite run_lift, (page_of_value args Hpage).
    rewrite run_lift, (perPage_of_value StringToNumber args 25 Hper).
    rewrite run_lift, !get_object.
    cbn [encodeURIComponent ToString bind Monad_Outcome ret]. rewrite Hquery.
    cbn [bind Monad_Outcome ret].
    rewrite run_request.
    change (request_of
              ("/me/videos?query=" ++ encodeURIComponent_string query
               ++ "&per_page="
               ++ Number_toString (page_size 25 (field "per_page" args))
               ++ "&page=" ++ Number_toString (page_sent (field "page" args))
               ++ video_fields ++ ",parent_folder") "GET" JUndefined)
      with req.
    rewrite Hreply. reflexivity. }
  clearbody run. subst run. unfold is_status. split.
  - intros Hs. destruct (Z.eqb_spec (status res) 200); [contradiction|].
    reflexivity.
  - intros body records Hs Hbody Hlisted.
    rewrite Hs, Hbody. cbn [Z.eqb Pos.eqb negb].
    rewrite run_lift_last, !get_object.
    pose proof (listed_records _ _ _ Hlisted) as Hrec.
    cbn [bind Monad_Outcome ret] in *.
    destruct (opt_chain (field "data" body)
                        (fun l => call_map l extractVideoMinimal)) as [m| |];
      try discriminate.
    injection Hrec as ->. reflexivity.
Qed.

End Search.

Lemma search_videos_result_witness :
  let args := [("query", JStr "Q&A live")] in
  paging_args_ok args = true
  /\ ToString (field "query" args) = Returned "Q&A live"
  /\ status (response_of (Some 401) None) <> 200
  /\ handleSearchVideos no_numeric_strings unauthorized (JObj args) []
     = (Returned (JSON_stringify
                    (obj [("error", JStr "Search failed");
                          ("status", JNum 401)]) compact),
        ([] ++ [get_request
                  "/me/videos?query=Q%26A%20live&per_page=25&page=1&fields=uri,name,duration,created_time,parent_folder"])%list).
Proof.
  intros args.
  assert (Hs : status (response_of (Some 401) None) <> 200) by discriminate.
  split; [reflexivity|]. split; [reflexivity|]. split; [exact Hs|].
  exact (proj1 (proj2 (proj2
           (search_videos_result no_numeric_strings unauthorized args
              "Q&A live" [] (Some 401)
              (Some (obj [("error", JStr "You must provide a valid authenticated access token.")]))
              eq_refl eq_refl eq_refl))) Hs).
Defined.

(* ===================================================================== *)
(** ** More about get_video *)
(* ===================================================================== *)

Lemma mapM_get_names items k :
  forallb (fun t => negb (nullish t)) items = true ->
  mapM (fun t => get t k) items = Returned (map (fun t => prop t k) items).
Proof.
  induction items as [|x rest IH]; intros Hall; [reflexivity|].
  simpl in Hall. apply andb_prop in Hall. destruct Hall as [Hx Hrest].
  cbn [mapM map bind Monad_Outcome ret].
  rewrite get_prop by (now destruct (nullish x)).
  now rewrite (IH Hrest).
Qed.

Lemma tags_reported tags :
  tags_ok tags = true ->
  (names <- opt_chain tags (fun ts => call_map ts (fun t => get t "name")) ;;
   ret (or_else names (JArr []))) = Returned (reported_tags tags).
Proof.
  destruct tags; try discriminate; intros Hok; try reflexivity.
  cbn [opt_chain nullish call_map bind Monad_Outcome ret].
  now rewrite (mapM_get_names items "name" Hok).
Qed.

(** X9.  On status 200 [get_video] builds its record from the response
    body, except for the identifier, which is the caller's [video_id]
    whatever uri the upstream sent: name, duration and link are taken as
    they are, folder is the name of the parent folder and privacy the view
    mode (both absent when the upstream has none), and tags are the names
    of the upstream tag objects, the empty list when there is no tag
    list. *)
Theorem get_video_record
        (upstream : Network) (args : list (string * JsVal)) (sv : string)
        (log : list Request) (statusCode : option Z) (parsed : option JsVal)
        (body : list (string * JsVal)) :
  let res := response_of statusCode parsed in
  ToString (field "video_id" args) = Returned sv ->
  upstream log (get_request (video_endpoint sv)) = Answer statusCode parsed ->
  status res = 200 ->
  data res = JObj body ->
  video_body_ok body = true ->
  exists description created,
    handleGetVideo upstream (JObj args) log
    = (Returned
         (JSON_stringify
            (obj [("id", field "video_id" args);
                  ("name", field "name" body);
                  ("description", description);
                  ("duration", field "duration" body);
                  ("created", created);
                  ("folder", opt_prop (field "parent_folder" body) "name");
                  ("tags", reported_tags (field "tags" body));
                  ("privacy", opt_prop (field "privacy" body) "view");
                  ("link", field "link" body)])
            two_spaces),
       (log ++ [get_request (video_endpoint sv)])%list)
    /\ date_part (field "created_time" body) = Returned created.
Proof.
  intros res Hsv Hreply Hs Hbody Hok.
  unfold video_body_ok in Hok.
  apply andb_prop in Hok. destruct Hok as [Hok Htags].
  apply andb_prop in Hok. destruct Hok as [Hdesc Hct].
  destruct (description_reported _ Hdesc) as [d [Hd _]].
  destruct (proj2 (date_part_returns _) Hct) as [created Hcreated].
  pose proof (tags_reported _ Htags) as Hnames.
  exists (JStr d), created. split; [|exact Hcreated].
  unfold handleGetVideo.
  rewrite run_lift, get_object. rewrite run_lift, Hsv.
  rewrite run_request. fold (video_endpoint sv).
  fold (get_request (video_endpoint sv)). rewrite Hreply. fold res.
  unfold is_status. rewrite Hs, Hbody. cbn [Z.eqb Pos.eqb negb].
  cbv zeta. rewrite !get_object, run_lift_last.
  cbn [bind Monad_Outcome ret] in *.
  destruct (opt_chain (field "description" body)
                      (fun s => call_substring0 s 500)) as [x| |];
    try discriminate.
  injection Hd as Hd. rewrite Hcreated, opt_chain_get.
  destruct (opt_chain (field "tags" body)
                      (fun ts => call_map ts (fun t => get t "name")))
    as [names| |]; try discriminate.
  injection Hnames as Hnames. rewrite opt_chain_get.
  now rewrite Hd, Hnames.
Qed.

Lemma get_video_record_witness :
  let args := [("video_id", JStr "42")] in
  let body :=
    [("uri", JStr "/videos/999"); ("name", JStr "Webinar");
     ("duration", JNum 360);
     ("created_time", JStr "2025-01-10T09:30:00+00:00");
     ("parent_folder", obj [("name", JStr "Marketing")]);
     ("tags", JArr [obj [("name", JStr "live"); ("canonical", JStr "live")];
                    obj [("name", JStr "q&a")]]);
     ("privacy", obj [("view", JStr "unlisted")]);
     ("link", JStr "https://vimeo.com/999")] in
  ToString (field "video_id" args) = Returned "42"
  /\ video_body_ok body = true
  /\ reported_tags (field "tags" body) = JArr [JStr "live"; JStr "q&a"]
  /\ exists description created,
       handleGetVideo tagged_video (JObj args) []
       = (Returned
            (JSON_stringify
               (obj [("id", field "video_id" args);
                     ("name", field "name" body);
                     ("description", description);
                     ("duration", field "duration" body);
                     ("created", created);
                     ("folder", opt_prop (field "parent_folder" body) "name");
                     ("tags", reported_tags (field "tags" body));
                     ("privacy", opt_prop (field "privacy" body) "view");
                     ("link", field "link" body)])
               two_spaces),
          ([] ++ [get_request (video_endpoint "42")])%list)
       /\ date_part (field "created_time" body) = Returned created.
Proof.
  intros args body.
  split; [reflexivity|]. split; [reflexivity|]. split; [reflexivity|].
  exact (get_video_record tagged_video args "42" [] (Some 200)
           (Some (obj body)) body eq_refl eq_refl eq_refl eq_refl eq_refl).
Defined.

(* ===================================================================== *)
(** ** More about get_stats *)
(* ===================================================================== *)

(** X10.  [get_stats] never looks at a status and has no error result:
    whatever the three statuses are, responses without totals and without
    a quota (failures, empty or unparsable bodies) give 0 videos, 0
    folders and "0.00" for both storage figures, after all three requests
    have been sent. *)
Theorem get_stats_defaults
        (StringToNumber : string -> option Z) (upstream : Network)
        (log : list Request)
        (sc1 sc2 sc3 : option Z) (p1 p2 p3 : option JsVal)
        (videos folders user : list (string * JsVal)) :
  upstream log videos_probe = Answer sc1 p1 ->
  upstream (log ++ [videos_probe])%list folders_probe = Answer sc2 p2 ->
  upstream ((log ++ [videos_probe]) ++ [folders_probe])%list quota_request
  = Answer sc3 p3 ->
  data (response_of sc1 p1) = JObj videos ->
  data (response_of sc2 p2) = JObj folders ->
  data (response_of sc3 p3) = JObj user ->
  truthy (field "total" videos) = false ->
  truthy (field "total" folders) = false ->
  nullish (field "upload_quota" user) = true ->
  handleGetStats StringToNumber upstream log
  = (Returned empty_stats, (log ++ stats_requests)%list).
Proof.
  intros H1 H2 H3 Hvideos Hfolders Huser Htv Htf Hquota.
  assert (Hspace : forall k, quota_space (JObj user) k = Returned (JNum 0)).
  { intros k. unfold quota_space. rewrite get_object.
    cbn [bind Monad_Outcome]. unfold opt_chain at 1. now rewrite Hquota. }
  unfold handleGetStats.
  rewrite run_request.
  change (request_of "/me/videos?per_page=1&fields=uri" "GET" JUndefined)
    with videos_probe.
  rewrite H1. rewrite run_lift, Hvideos, get_object.
  rewrite run_request.
  change (request_of "/me/projects?per_page=1" "GET" JUndefined)
    with folders_probe.
  rewrite H2. rewrite run_lift, Hfolders, get_object.
  rewrite run_request.
  change (request_of "/me?fields=upload_quota" "GET" JUndefined)
    with quota_request.
  rewrite H3, Huser.
  rewrite run_lift, Hspace. rewrite run_lift, Hspace.
  rewrite run_lift_last. unfold or_else. rewrite Htv, Htf.
  unfold stats_requests. f_equal. now rewrite <- !app_assoc.
Qed.

Lemma get_stats_defaults_witness :
  always_500 [] videos_probe = Answer (Some 500) None
  /\ data (response_of (Some 500) None) = JObj []
  /\ truthy (field "total" []) = false
  /\ nullish (field "upload_quota" []) = true
  /\ handleGetStats no_numeric_strings always_500 []
     = (Returned empty_stats, ([] ++ stats_requests)%list).
Proof.
  split; [reflexivity|]. split; [reflexivity|]. split; [reflexivity|].
  split; [reflexivity|].
  exact (get_stats_defaults no_numeric_strings always_500 []
           (Some 500) (Some 500) (Some 500) None None None [] [] []
           eq_refl eq_refl eq_refl eq_refl eq_refl eq_refl
           eq_refl eq_refl eq_refl).
Defined.

(* ===================================================================== *)
(** ** More about the extractors *)
(* ===================================================================== *)

Lemma or_else_defined a b : b <> JUndefined -> or_else a b <> JUndefined.
Proof.
  intros Hb. unfold or_else. destruct (truthy a) eqn:Ha; [|exact Hb].
  intros ->. discriminate Ha.
Qed.

Lemma defaulted_id_defined u id :
  defaulted_id u = Returned id -> id <> JUndefined.
Proof.
  unfold defaulted_id. cbn [bind Monad_Outcome ret].
  destruct (call_split (or_else u (JStr "")) "/") as [segs| |];
    try discriminate.
  intros H. injection H as <-. apply or_else_defined. discriminate.
Qed.

Lemma keys_cons_defined k v rest :
  v <> JUndefined ->
  serialized_keys (JObj ((k, v) :: rest)) = k :: serialized_keys (JObj rest).
Proof.
  intros Hv. unfold serialized_keys. cbn [filter snd].
  destruct v; try reflexivity. contradiction.
Qed.

Lemma keys_cons_optional k v :
  serialized_keys (JObj [(k, v)])
  = match v with JUndefined => [] | _ => [k] end.
Proof. destruct v; reflexivity. Qed.

(** X11.  Every record the extractors return is serialized with all its
    mandatory keys: a video record always has id, name, duration and
    created, and has the folder key exactly when the resource has a parent
    folder whose name is not undefined; a folder record always has id, name and
    video_count, the count being the upstream's
    metadata.connections.videos.total when that is truthy and 0
    otherwise. *)
Theorem minimal_records_keys (props : list (string * JsVal)) :
  (forall r,
      extractVideoMinimal (JObj props) = Returned r ->
      serialized_keys r
      = (["id"; "name"; "duration"; "created"]
         ++ match opt_prop (field "parent_folder" props) "name" with
            | JUndefined => []
            | _ => ["folder"]
            end)%list)
  /\ (forall r,
         extractFolderMinimal (JObj props) = Returned r ->
         serialized_keys r = ["id"; "name"; "video_count"]
         /\ get r "video_count"
            = Returned (or_else (nested_total props) (JNum 0))).
Proof.
  split.
  - intros r. rewrite extractVideoMinimal_unfold, opt_chain_get.
    cbn [bind Monad_Outcome ret].
    destruct (defaulted_id (field "uri" props)) as [id| |] eqn:Hid;
      try discriminate.
    destruct (date_part (field "created_time" props)) as [created| |];
      try discriminate.
    intros H. injection H as <-. unfold obj.
    rewrite keys_cons_defined by (now apply (defaulted_id_defined _ _ Hid)).
    rewrite !keys_cons_defined by (apply or_else_defined; discriminate).
    now rewrite keys_cons_optional.
  - intros r. rewrite extractFolderMinimal_unfold, videos_total_value.
    cbn [bind Monad_Outcome ret].
    destruct (defaulted_id (field "uri" props)) as [id| |] eqn:Hid;
      try discriminate.
    intros H. injection H as <-. unfold obj. split; [|reflexivity].
    rewrite keys_cons_defined by (now apply (defaulted_id_defined _ _ Hid)).
    rewrite !keys_cons_defined by (apply or_else_defined; discriminate).
    reflexivity.
Qed.

Lemma minimal_records_keys_witness :
  extractFolderMinimal (JObj sparse_folder)
  = Returned (obj [("id", JStr "77"); ("name", JStr "Untitled");
                   ("video_count", JNum 0)])
  /\ serialized_keys (obj [("id", JStr "77"); ("name", JStr "Untitled");
                           ("video_count", JNum 0)])
     = ["id"; "name"; "video_count"].
Proof.
  split; [reflexivity|].
  exact (proj1 (proj2 (minimal_records_keys sparse_folder) _ eq_refl)).
Defined.

Lemma first_split_prefix sep date rest :
  has_char sep date = false ->
  first (split_on sep (date ++ String sep rest)) = JStr date.
Proof.
  induction date as [|c date IH]; intros Hclean.
  - cbn [append split_on]. now rewrite Ascii.eqb_refl.
  - simpl in Hclean. apply orb_false_elim in Hclean.
    destruct Hclean as [Hc Hrest].
    cbn [append split_on]. rewrite Hc.
    specialize (IH Hrest).
    destruct (split_on sep (date ++ String sep rest)) as [|seg segs];
      [discriminate|].
    simpl in IH. injection IH as ->. reflexivity.
Qed.

(** X12.  The creation date of a video record is the creation time cut at
    its first "T": a timestamp such as 2025-01-10T08:00:00+00:00 gives
    2025-01-10, and a creation time without any "T" is reported whole. *)
Theorem created_is_date_prefix (props : list (string * JsVal)) :
  string_or_falsy (field "uri" props) = true ->
  (forall date rest,
      field "created_time" props = JStr (date ++ "T" ++ rest) ->
      has_char "T" date = false ->
      exists r, extractVideoMinimal (JObj props) = Returned r
                /\ get r "created" = Returned (JStr date))
  /\ (forall whole,
         field "created_time" props = JStr whole ->
         has_char "T" whole = false ->
         exists r, extractVideoMinimal (JObj props) = Returned r
                   /\ get r "created" = Returned (JStr whole)).
Proof.
  intros Huri.
  destruct (proj2 (defaulted_id_returns _) Huri) as [id Hid].
  assert (Hrecord : forall d,
    date_part (field "created_time" props) = Returned (JStr d) ->
    exists r, extractVideoMinimal (JObj props) = Returned r
              /\ get r "created" = Returned (JStr d)).
  { intros d Hd. rewrite extractVideoMinimal_unfold, Hid, Hd, opt_chain_get.
    cbn [bind Monad_Outcome ret]. eexists. split; [reflexivity|].
    cbn. now rewrite or_else_string. }
  split.
  - intros date rest Hct Hclean. apply Hrecord. rewrite Hct.
    unfold date_part. cbn [opt_chain nullish call_split bind Monad_Outcome ret append].
    now rewrite first_split_prefix.
  - intros whole Hct Hclean. apply Hrecord. rewrite Hct.
    unfold date_part. cbn [opt_chain nullish call_split bind Monad_Outcome ret].
    now rewrite split_on_clean.
Qed.

Lemma created_is_date_prefix_witness :
  string_or_falsy (field "uri" sample_video) = true
  /\ field "created_time" sample_video
     = JStr ("2024-01-02" ++ "T" ++ "03:04:05+00:00")
  /\ has_char "T" "2024-01-02" = false
  /\ exists r, extractVideoMinimal (JObj sample_video) = Returned r
               /\ get r "created" = Returned (JStr "2024-01-02").
Proof.
  split; [reflexivity|]. split; [reflexivity|]. split; [reflexivity|].
  exact (proj1 (created_is_date_prefix sample_video eq_refl)
               "2024-01-02" "03:04:05+00:00" eq_refl eq_refl).
Defined.

(* ===================================================================== *)
(** ** More about dispatch *)
(* ===================================================================== *)



(* ===================================================================== *)
(** ** Transport failures *)
(* ===================================================================== *)

Lemma ToString_simple v :
  string_or_absent v = true -> exists s, ToString v = Returned s.
Proof.
  intros Hok.
  destruct (string_or_absent_cases v Hok) as [->|[->|[s ->]]];
    eexists; reflexivity.
Qed.

Section TransportFailure.

Variable StringToNumber : string -> option Z.
Variable upstream : Network.
Variable e : JsError.
Hypothesis Hfails : always_fails upstream e.

Lemma request_fails {B} endpoint method body (k : VimeoResponse -> Task B) log :
  bind (vimeoRequest upstream endpoint method body) k log
  = (Thrown e, (log ++ [request_of endpoint method body])%list).
Proof. now rewrite run_request, Hfails. Qed.

Lemma handler_fails_once fuel name args log :
  tool_args_ok args = true ->
  In name TOOLS ->
  exists req,
    run_tool StringToNumber upstream (S fuel) name (JObj args) log
    = (Thrown e, (log ++ [req])%list).
Proof.
  unfold tool_args_ok. intros Hok Hin.
  apply andb_prop in Hok. destruct Hok as [Hok Hquery].
  apply andb_prop in Hok. destruct Hok as [Hok Hvideo].
  apply andb_prop in Hok. destruct Hok as [Hok Hsearch].
  apply andb_prop in Hok. destruct Hok as [Hok Hfolder].
  apply andb_prop in Hok. destruct Hok as [Hpage Hper].
  destruct (ToString_simple _ Hfolder) as [sf Hsf].
  destruct (ToString_simple _ Hvideo) as [sv Hsv].
  destruct (ToString_simple _ Hquery) as [sq Hsq].
  unfold TOOLS in Hin. simpl in Hin.
  destruct Hin as [<-|[<-|[<-|[<-|[<-|[<-|[<-|[<-|[<-|[]]]]]]]]]].
  - change (run_tool StringToNumber upstream (S fuel) "list_folders" (JObj args))
      with (handleListFolders upstream (S fuel)).
    unfold handleListFolders. cbn [bind Monad_Task].
    rewrite (loop_transport_error upstream fuel [] 1 log e (Hfails _ _)).
    eexists; reflexivity.
  - change (run_tool StringToNumber upstream (S fuel) "list_videos" (JObj args))
      with (handleListVideos StringToNumber upstream (JObj args)).
    destruct (handleListVideos_request StringToNumber upstream args log)
      as [endpoint ->].
    { unfold list_videos_args_ok. now rewrite Hpage, Hper, Hfolder, Hsearch. }
    rewrite request_fails. eexists; reflexivity.
  - change (run_tool StringToNumber upstream (S fuel) "get_video" (JObj args))
      with (handleGetVideo upstream (JObj args)).
    unfold handleGetVideo.
    rewrite run_lift, get_object. rewrite run_lift, Hsv.
    rewrite request_fails. eexists; reflexivity.
  - change (run_tool StringToNumber upstream (S fuel) "get_folder_videos" (JObj args))
      with (handleGetFolderVideos StringToNumber upstream (JObj args)).
    unfold handleGetFolderVideos.
    rewrite run_lift, (page_of_value args Hpage).
    rewrite run_lift, (perPage_of_value StringToNumber args 50 Hper).
    rewrite run_lift, get_object. cbn [bind Monad_Outcome]. rewrite Hsf.
    rewrite request_fails. eexists; reflexivity.
  - change (run_tool StringToNumber upstream (S fuel) "move_video" (JObj args))
      with (handleMoveVideo upstream (JObj args)).
    unfold handleMoveVideo.
    rewrite run_lift, get_object. cbn [bind Monad_Outcome]. rewrite Hsf.
    rewrite run_lift, get_object. cbn [bind Monad_Outcome]. rewrite Hsv.
    rewrite request_fails. eexists; reflexivity.
  - change (run_tool StringToNumber upstream (S fuel) "create_folder" (JObj args))
      with (handleCreateFolder upstream (JObj args)).
    unfold handleCreateFolder.
    rewrite run_lift, get_object.
    rewrite request_fails. eexists; reflexivity.
  - change (run_tool StringToNumber upstream (S fuel) "update_video" (JObj args))
      with (handleUpdateVideo upstream (JObj args)).
    rewrite (handleUpdateVideo_run upstream args sv log Hsv).
    cbv zeta. rewrite Hfails. eexists; reflexivity.
  - change (run_tool StringToNumber upstream (S fuel) "search_videos" (JObj args))
      with (handleSearchVideos StringToNumber upstream (JObj args)).
    unfold handleSearchVideos.
    rewrite run_lift, (page_of_value args Hpage).
    rewrite run_lift, (perPage_of_value StringToNumber args 25 Hper).
    rewrite run_lift, !get_object.
    cbn [encodeURIComponent ToString bind Monad_Outcome ret]. rewrite Hsq.
    cbn [bind Monad_Outcome ret].
    rewrite request_fails. eexists; reflexivity.
  - change (run_tool StringToNumber upstream (S fuel) "get_stats" (JObj args))
      with (handleGetStats StringToNumber upstream).
    unfold handleGetStats.
    rewrite request_fails. eexists; reflexivity.
Qed.

(** X14.  Nothing is retried and nothing is swallowed: when every request
    fails at the transport level, each of the nine tools, called with
    arguments of the declared types, gives up after exactly one request,
    and the call comes back as an error result carrying the transport
    error's message. *)
Theorem transport_failure_not_retried
        (fuel : nat) (name : string) (args : list (string * JsVal))
        (log : list Request) :
  tool_args_ok args = true ->
  In name TOOLS ->
  exists req,
    callTool StringToNumber upstream (S fuel) name (JObj args) log
    = (Returned (error_result (message e)), (log ++ [req])%list).
Proof.
  intros Hok Hin.
  destruct (handler_fails_once fuel name args log Hok Hin) as [req Hrun].
  exists req. now rewrite callTool_run, Hrun.
Qed.

End TransportFailure.

Lemma transport_failure_not_retried_witness :
  always_fails unreachable {| err_name := "Error"; message := "connect ECONNREFUSED" |}
  /\ tool_args_ok [("folder_id", JStr "789")] = true
  /\ In "get_folder_videos" TOOLS
  /\ exists req,
       callTool no_numeric_strings unreachable 1 "get_folder_videos"
         (JObj [("folder_id", JStr "789")]) []
       = (Returned (error_result "connect ECONNREFUSED"), ([] ++ [req])%list).
Proof.
  assert (Hfails : always_fails unreachable
                     {| err_name := "Error"; message := "connect ECONNREFUSED" |})
    by (intros log req; reflexivity).
  assert (Hin : In "get_folder_videos" TOOLS) by (simpl; tauto).
  split; [exact Hfails|]. split; [reflexivity|]. split; [exact Hin|].
  exact (transport_failure_not_retried no_numeric_strings unreachable _ Hfails
           0 "get_folder_videos" [("folder_id", JStr "789")] [] eq_refl Hin).
Defined.

(* ===================================================================== *)
(** ** The request of list_videos *)
(* ===================================================================== *)

(** X15.  [list_videos] sends exactly one request, whose endpoint depends
    on the arguments alone: the folder's own listing (which does not ask
    for the parent folder) when a non-empty folder_id is given, the
    unscoped listing otherwise (also for an empty folder_id), followed by
    the search text, URI-encoded, when a non-empty one is given. *)
Theorem list_videos_request
        (StringToNumber : string -> option Z) (upstream : Network)
        (args : list (string * JsVal)) (log : list Request) :
  list_videos_args_ok args = true ->
  snd (handleListVideos StringToNumber upstream (JObj args) log)
  = (log ++ [get_request (list_videos_endpoint args)])%list.
Proof.
  intros Hargs. pose proof Hargs as Hok. unfold list_videos_args_ok in Hok.
  apply andb_prop in Hok. destruct Hok as [Hok Hsearch].
  apply andb_prop in Hok. destruct Hok as [Hok Hfolder].
  apply andb_prop in Hok. destruct Hok as [Hpage Hper].
  assert (Hsnd : forall endpoint,
    snd ((res <- vimeoRequest upstream endpoint "GET" JUndefined ;;
          if negb (is_status res 200) then
            ret (JSON_stringify (obj [("error", JStr "Failed to fetch videos");
                                      ("status", JNum (status res))]) compact)
          else
            lift (
              listed <- get (data res) "data" ;;
              mapped <- opt_chain listed (fun l => call_map l extractVideoMinimal) ;;
              let videos := or_else mapped (JArr []) in
              res_total <- get (data res) "total" ;;
              let total := or_else res_total (array_length videos) in
              ret (JSON_stringify
                     (obj [("total", total);
                           ("page", JNum (page_sent (field "page" args)));
                           ("per_page", JNum (per_page_sent (field "per_page" args)));
                           ("videos", videos)])
                     two_spaces))) log)
    = (log ++ [get_request endpoint])%list).
  { intros endpoint. rewrite run_request. fold (get_request endpoint).
    destruct (upstream log (get_request endpoint)) as [sc parsed|err];
      [|reflexivity].
    destruct (negb (is_status (response_of sc parsed) 200)); reflexivity. }
  unfold handleListVideos.
  rewrite run_lift, (page_of_value args Hpage).
  rewrite run_lift, (perPage_of_number StringToNumber args Hper).
  rewrite run_lift, !get_object.
  cbn [ToString bind Monad_Outcome].
  unfold list_videos_endpoint.
  destruct (string_or_absent_cases _ Hfolder) as [Hf|[Hf|[f Hf]]];
    destruct (string_or_absent_cases _ Hsearch) as [Hs|[Hs|[q Hs]]];
    rewrite Hf, Hs; unfold truthy;
    try destruct (String.eqb f ""); try destruct (String.eqb q "");
    cbn [negb ToString encodeURIComponent bind ret Monad_Outcome];
    apply Hsnd.
Qed.

(** A listing of a folder with a search text. *)
Example list_videos_scoped_search :
  snd (handleListVideos no_numeric_strings always_ok
         (obj [("folder_id", JStr "789"); ("search", JStr "intro & outro");
               ("page", JNum 2)]) [])
  = [get_request
       "/me/projects/789/videos?per_page=50&page=2&fields=uri,name,duration,created_time&query=intro%20%26%20outro"].
Proof. reflexivity. Qed.

Lemma list_videos_request_witness :
  let args := [("folder_id", JStr ""); ("per_page", JNum 10)] in
  list_videos_args_ok args = true
  /\ snd (handleListVideos no_numeric_strings always_ok (JObj args) [])
     = ([] ++ [get_request (list_videos_endpoint args)])%list
  /\ list_videos_endpoint args
     = "/me/videos?per_page=10&page=1&fields=uri,name,duration,created_time,parent_folder".
Proof.
  intros args. split; [reflexivity|].
  split; [|reflexivity].
  exact (list_videos_request no_numeric_strings always_ok args [] eq_refl).
Defined.
